(** * prcomment: adding or updating one comment on a GitHub pull request

    A shallow embedding of the Go package [prcomment] (bobg/prcomment):
    the URL helper [ParsePR] and the method [Commenter.AddOrUpdate],
    followed by the properties of both.

    Go strings are byte sequences: they are [string]s here, one [ascii]
    per byte.  Go's [int] is taken at 64 bits and carried in [Z].  An
    [error] interface value is an [option error], [None] being [nil]. *)

From Stdlib Require Import String Ascii List ZArith Bool Lia.
From Stdlib Require Decimal DecimalString DecimalPos DecimalZ.
Import ListNotations.
Local Open Scope string_scope.
Local Open Scope Z_scope.

(** ** Errors *)

(** The two sentinel causes of [*strconv.NumError]. *)
Inductive NumErrCause : Type := ErrSyntax | ErrRange.

(** The error values the package sees or makes.  [External] is an error
    handed back by a collaborator (the GitHub client, the body callback);
    the package never inspects it.  [TooFewPathElements] and
    [NotExpectedFormat] are the two [fmt.Errorf] values of [ParsePR];
    [Wrapped e msg] is what [errors.Wrap] builds around [e]. *)
Inductive error : Type :=
| External (msg : string)
| UrlError (op url msg : string)
| NumError (func num : string) (cause : NumErrCause)
| TooFewPathElements (got : nat)
| NotExpectedFormat
| Wrapped (e : error) (msg : string).

(** github.com/bobg/errors *)
Module errors.

(** [errors.Wrap(err, msg)]: [nil] stays [nil], anything else is wrapped
    (the stack trace the library attaches is left out). *)
Definition Wrap (err : option error) (msg : string) : option error :=
  match err with
  | None => None
  | Some e => Some (Wrapped e msg)
  end.

End errors.

(** ** The standard-library functions [ParsePR] calls *)

Module strings.

(** [strings.ContainsRune] on a cutset of one-byte characters. *)
Fixpoint contains (cutset : string) (c : ascii) : bool :=
  match cutset with
  | EmptyString => false
  | String d rest => Ascii.eqb c d || contains rest c
  end.

(** [strings.TrimLeft(s, cutset)]: [s] without all its leading bytes
    that occur in [cutset] (an ASCII cutset, as at the call site). *)
Fixpoint TrimLeft (s cutset : string) : string :=
  match s with
  | EmptyString => EmptyString
  | String c rest => if contains cutset c then TrimLeft rest cutset else s
  end.

(** The loop of [strings.Split] for a one-byte separator: [cur] is the
    piece being read. *)
Fixpoint split_from (cur : string) (s : string) (sep : ascii) : list string :=
  match s with
  | EmptyString => [cur]
  | String c rest =>
      if Ascii.eqb c sep then cur :: split_from EmptyString rest sep
      else split_from (cur ++ String c EmptyString) rest sep
  end.

(** [strings.Split(s, sep)] for a one-byte [sep]: every piece between
    separators, empty ones included; never the empty list. *)
Definition Split (s : string) (sep : ascii) : list string :=
  split_from EmptyString s sep.

(** [strings.Index(s, sep)] for a one-byte [sep]. *)
Fixpoint Index (s : string) (sep : ascii) : option nat :=
  match s with
  | EmptyString => None
  | String c rest =>
      if Ascii.eqb c sep then Some O
      else option_map S (Index rest sep)
  end.

(** [strings.LastIndex(s, sep)] for a one-byte [sep]. *)
Fixpoint LastIndex (s : string) (sep : ascii) : option nat :=
  match s with
  | EmptyString => None
  | String c rest =>
      match LastIndex rest sep with
      | Some i => Some (S i)
      | None => if Ascii.eqb c sep then Some O else None
      end
  end.

(** [s[n:]] *)
Fixpoint drop (n : nat) (s : string) : string :=
  match n, s with
  | O, _ => s
  | S _, EmptyString => EmptyString
  | S m, String _ rest => drop m rest
  end.

(** [s[:n]] *)
Fixpoint take (n : nat) (s : string) : string :=
  match n, s with
  | O, _ => EmptyString
  | S _, EmptyString => EmptyString
  | S m, String c rest => String c (take m rest)
  end.

(** [strings.Cut(s, sep)] for a one-byte [sep]: before, after, found. *)
Definition Cut (s : string) (sep : ascii) : string * string * bool :=
  match Index s sep with
  | Some i => (take i s, drop (S i) s, true)
  | None => (s, EmptyString, false)
  end.

(** [strings.HasPrefix(s, prefix)] *)
Fixpoint HasPrefix (s prefix : string) {struct prefix} : bool :=
  match prefix with
  | EmptyString => true
  | String b prefix' =>
      match s with
      | EmptyString => false
      | String a s' => Ascii.eqb a b && HasPrefix s' prefix'
      end
  end.

(** [strings.Count(s, sep)] for a one-byte [sep]. *)
Fixpoint Count (s : string) (sep : ascii) : nat :=
  match s with
  | EmptyString => O
  | String c rest => ((if Ascii.eqb c sep then 1 else 0) + Count rest sep)%nat
  end.

(** [strings.ToLower] on ASCII letters. *)
Definition lower (c : ascii) : ascii :=
  let n := nat_of_ascii c in
  if (65 <=? n)%nat && (n <=? 90)%nat then ascii_of_nat (n + 32) else c.

Fixpoint ToLower (s : string) : string :=
  match s with
  | EmptyString => EmptyString
  | String c rest => String (lower c) (ToLower rest)
  end.

End strings.

Module strconv.

(** [intSize]: the width of [int]. *)
Definition IntSize : Z := 64.

(** [ch -= '0'; if ch > 9]: the value of a decimal digit byte. *)
Definition digit (c : ascii) : option Z :=
  let n := Z.of_nat (nat_of_ascii c) in
  if (48 <=? n) && (n <=? 57) then Some (n - 48) else None.

(** The largest [uint64], and the smallest number that ten times
    overflows it: [maxVal] and [cutoff] of [ParseUint] in base 10. *)
Definition maxVal : Z := 2 ^ IntSize - 1.
Definition cutoff10 : Z := maxVal / 10 + 1.

(** The loop of [ParseUint(s, 10, 0)], byte by byte from the number [n]
    read so far.  A byte that is no decimal digit ends it with a syntax
    error and 0; a digit that would take the number past [uint64] ends
    it at once with a range error and [maxVal], the bytes after it
    unread. *)
Fixpoint digits (s : string) (n : Z) : Z * option NumErrCause :=
  match s with
  | EmptyString => (n, None)
  | String c rest =>
      match digit c with
      | None => (0, Some ErrSyntax)
      | Some d =>
          if cutoff10 <=? n then (maxVal, Some ErrRange)
          else if maxVal <? n * 10 + d then (maxVal, Some ErrRange)
          else digits rest (n * 10 + d)
      end
  end.

(** [ParseUint(s, 10, 0)] *)
Definition ParseUint (s : string) : Z * option NumErrCause :=
  match s with
  | EmptyString => (0, Some ErrSyntax)
  | _ => digits s 0
  end.

(** [ParseInt(s, 10, 0)]: an optional sign, then [ParseUint].  A syntax
    error gives 0; a number outside [int], the range error of
    [ParseUint] included, gives the bound of [int] on its side. *)
Definition ParseInt (s : string) : Z * option NumErrCause :=
  let cutoff := 2 ^ (IntSize - 1) in
  match s with
  | EmptyString => (0, Some ErrSyntax)
  | String c rest =>
      let neg := Ascii.eqb c "-" in
      let body := if neg || Ascii.eqb c "+" then rest else s in
      match ParseUint body with
      | (_, Some ErrSyntax) => (0, Some ErrSyntax)
      | (un, _) =>
          if negb neg && (cutoff <=? un) then (cutoff - 1, Some ErrRange)
          else if neg && (cutoff <? un) then (- cutoff, Some ErrRange)
          else (if neg then - un else un, None)
      end
  end.

Definition syntaxError (s : string) : error := NumError "Atoi" s ErrSyntax.
Definition rangeError (s : string) : error := NumError "Atoi" s ErrRange.

(** [strconv.Atoi(s)]: what [ParseInt(s, 10, 0)] gives, the error a
    [*NumError] of function ["Atoi"] about [s].  (For a string of fewer
    than 19 bytes Go runs a loop of its own, which gives the same: so
    short a numeral cannot overflow.) *)
Definition Atoi (s : string) : Z * option error :=
  match ParseInt s with
  | (i, Some cause) => (i, Some (NumError "Atoi" s cause))
  | (i, None) => (i, None)
  end.

(** [strconv.Itoa(i)]: [i] written in decimal, with a minus sign in front
    when it is negative and no leading zero. *)
Definition Itoa (i : Z) : string :=
  DecimalString.NilZero.string_of_int (Z.to_int i).

(** [math.MaxInt] and [math.MinInt], the bounds of [int]. *)
Definition MaxInt : Z := 2 ^ (IntSize - 1) - 1.
Definition MinInt : Z := - 2 ^ (IntSize - 1).

End strconv.

(** net/url.  [Parse] is a model of the standard library's parser, which
    is not part of the package: it follows [url.Parse] and its helpers
    [getScheme], [parseAuthority], [parseHost], [validOptionalPort] and
    [unescape] for the fields below.  Left out: the fields [User],
    [RawPath], [RawFragment], [ForceQuery] and [OmitHost], the check of
    the bytes of the userinfo and of the host, and percent-escapes inside
    the host.  [ParsePR] takes its parser as an argument, so that what is
    proved for every URL holds of any parser; the model serves the
    concrete URLs. *)
Module url.

Record URL : Type := {
  Scheme : string;
  Opaque : string;
  Host : string;
  Path : string;
  RawQuery : string;
  Fragment : string
}.

(** What went wrong, inside a [*url.Error].  The last two carry their
    argument after the text; Go prints it quoted inside the text. *)
Definition invalidControl : string := "net/url: invalid control character in URL".
Definition missingScheme : string := "missing protocol scheme".
Definition colonInFirstSegment : string := "first path segment in URL cannot contain colon".
Definition missingBracket : string := "missing ']' in host".
Definition invalidPort (port : string) : string := "invalid port after host: " ++ port.
Definition escapeError (s : string) : string := "invalid URL escape: " ++ s.

Definition between (lo hi : nat) (c : ascii) : bool :=
  let n := nat_of_ascii c in ((lo <=? n) && (n <=? hi))%nat.

Definition isLetter (c : ascii) : bool := between 97 122 c || between 65 90 c.
Definition isDigit (c : ascii) : bool := between 48 57 c.
Definition ishex (c : ascii) : bool :=
  isDigit c || between 97 102 c || between 65 70 c.

Definition unhex (c : ascii) : nat :=
  let n := nat_of_ascii c in
  if isDigit c then n - 48
  else if between 97 102 c then n - 97 + 10
  else if between 65 70 c then n - 65 + 10
  else 0.

(** [stringContainsCTLByte]: a byte below 0x20, or 0x7f. *)
Fixpoint stringContainsCTLByte (s : string) : bool :=
  match s with
  | EmptyString => false
  | String c rest =>
      (nat_of_ascii c <? 32)%nat || (nat_of_ascii c =? 127)%nat
      || stringContainsCTLByte rest
  end.

(** The loop of [getScheme], at index [i] of [rawURL] with [s] left. *)
Fixpoint getScheme_at (i : nat) (s rawURL : string) : (string * string) + string :=
  match s with
  | EmptyString => inl (EmptyString, rawURL)
  | String c rest =>
      if isLetter c then getScheme_at (S i) rest rawURL
      else if isDigit c || strings.contains "+-." c then
        match i with
        | O => inl (EmptyString, rawURL)
        | S _ => getScheme_at (S i) rest rawURL
        end
      else if Ascii.eqb c ":" then
        match i with
        | O => inr missingScheme
        | S _ => inl (strings.take i rawURL, strings.drop (S i) rawURL)
        end
      else inl (EmptyString, rawURL)
  end.

Definition getScheme (rawURL : string) : (string * string) + string :=
  getScheme_at O rawURL rawURL.

(** [unescape(s, encodePath)]: every [%XX] becomes its byte; a [%] not
    followed by two hex digits is an error. *)
Fixpoint unescape (s : string) : string + string :=
  match s with
  | EmptyString => inl EmptyString
  | String c rest =>
      if Ascii.eqb c "%" then
        match rest with
        | String a (String b rest') =>
            if ishex a && ishex b then
              match unescape rest' with
              | inl t => inl (String (ascii_of_nat (unhex a * 16 + unhex b)) t)
              | inr e => inr e
              end
            else inr (escapeError (strings.take 3 s))
        | _ => inr (escapeError (strings.take 3 s))
        end
      else
        match unescape rest with
        | inl t => inl (String c t)
        | inr e => inr e
        end
  end.

Fixpoint allDigits (s : string) : bool :=
  match s with
  | EmptyString => true
  | String c rest => isDigit c && allDigits rest
  end.

(** [validOptionalPort]: empty, or a colon and digits. *)
Definition validOptionalPort (port : string) : bool :=
  match port with
  | EmptyString => true
  | String c rest => Ascii.eqb c ":" && allDigits rest
  end.

(** [parseHost], without the unescaping of the host. *)
Definition parseHost (host : string) : string + string :=
  if strings.HasPrefix host "[" then
    match strings.LastIndex host "]" with
    | None => inr missingBracket
    | Some i =>
        let colonPort := strings.drop (S i) host in
        if validOptionalPort colonPort then inl host
        else inr (invalidPort colonPort)
    end
  else
    match strings.LastIndex host ":" with
    | Some i =>
        let colonPort := strings.drop i host in
        if validOptionalPort colonPort then inl host
        else inr (invalidPort colonPort)
    | None => inl host
    end.

(** [parseAuthority]: the host is what follows the last [@]. *)
Definition parseAuthority (authority : string) : string + string :=
  match strings.LastIndex authority "@" with
  | None => parseHost authority
  | Some i => parseHost (strings.drop (S i) authority)
  end.

(** [parse(rawURL, false)] *)
Definition parse (rawURL : string) : URL + string :=
  if stringContainsCTLByte rawURL then inr invalidControl
  else if String.eqb rawURL "*" then
    inl {| Scheme := ""; Opaque := ""; Host := ""; Path := "*";
           RawQuery := ""; Fragment := "" |}
  else
    match getScheme rawURL with
    | inr e => inr e
    | inl (scheme, rest) =>
        let scheme := strings.ToLower scheme in
        let '(rest, query) :=
          if String.eqb (strings.drop (String.length rest - 1) rest) "?"
             && Nat.eqb (strings.Count rest "?") 1
          then (strings.take (String.length rest - 1) rest, EmptyString)
          else let '(before, after, _) := strings.Cut rest "?" in (before, after) in
        if negb (strings.HasPrefix rest "/") && negb (String.eqb scheme "") then
          inl {| Scheme := scheme; Opaque := rest; Host := ""; Path := "";
                 RawQuery := query; Fragment := "" |}
        else if negb (strings.HasPrefix rest "/")
                && (let '(segment, _, _) := strings.Cut rest "/" in
                    strings.contains segment ":") then
          inr colonInFirstSegment
        else
          let authority_rest :=
            if (negb (String.eqb scheme "") || negb (strings.HasPrefix rest "///"))
               && strings.HasPrefix rest "//" then
              let authority := strings.drop 2 rest in
              match strings.Index authority "/" with
              | Some i =>
                  (Some (strings.take i authority), strings.drop i authority)
              | None => (Some authority, EmptyString)
              end
            else (None, rest) in
          let host :=
            match fst authority_rest with
            | Some authority => parseAuthority authority
            | None => inl EmptyString
            end in
          match host with
          | inr e => inr e
          | inl host =>
              match unescape (snd authority_rest) with
              | inr e => inr e
              | inl path =>
                  inl {| Scheme := scheme; Opaque := ""; Host := host;
                         Path := path; RawQuery := query; Fragment := "" |}
              end
          end
    end.

(** [url.Parse(rawURL)]: the fragment is cut off first and unescaped
    last; every failure is a [*url.Error] of operation ["parse"]. *)
Definition Parse (rawURL : string) : URL + error :=
  let '(u, frag, _) := strings.Cut rawURL "#" in
  match parse u with
  | inr e => inr (UrlError "parse" u e)
  | inl url =>
      match unescape frag with
      | inr e => inr (UrlError "parse" rawURL e)
      | inl f =>
          inl {| Scheme := Scheme url; Opaque := Opaque url; Host := Host url;
                 Path := Path url; RawQuery := RawQuery url; Fragment := f |}
      end
  end.

End url.

(** ** ParsePR *)

(** The five results of [ParsePR], named as in the source. *)
Record PRResult : Type := {
  host : string;
  owner : string;
  reponame : string;
  prnum : Z;
  err : option error
}.

Section ParsePR.

(** [url.Parse], the parser [ParsePR] hands the string to. *)
Variable url_Parse : string -> url.URL + error.

(** The named results at their zero values, with the error set:
    what a bare [return] gives before any of them is assigned. *)
Definition zeroed (e : option error) : PRResult :=
  {| host := ""; owner := ""; reponame := ""; prnum := 0; err := e |}.

(** [parts]: the path without its leading slashes, split on slashes. *)
Definition path_parts (u : url.URL) : list string :=
  let path := strings.TrimLeft (url.Path u) "/" in
  strings.Split path "/".

(** [ParsePR] parses a GitHub pull-request URL, which should have the
    form http(s)://HOST/OWNER/REPO/pull/NUMBER. *)
Definition ParsePR (pr : string) : PRResult :=
  match url_Parse pr with
  | inr e => zeroed (errors.Wrap (Some e) "parsing GitHub pull-request URL")
  | inl u =>
      let parts := path_parts u in
      if (length parts <? 4)%nat then
        zeroed (Some (TooFewPathElements (length parts)))
      else if negb (String.eqb (nth 2 parts "") "pull") then
        zeroed (Some NotExpectedFormat)
      else
        let '(n, e) := strconv.Atoi (nth 3 parts "") in
        {| host := url.Host u;
           owner := nth 0 parts "";
           reponame := nth 1 parts "";
           prnum := n;
           err := errors.Wrap e "parsing number from GitHub pull-request URL" |}
  end.

End ParsePR.

(** *** The specification's reading of the segments

    The specification has the path lose "a leading slash" before it is
    split.  [spec_parts] is that reading, word for word: one slash is
    removed when the path starts with one.  It is compared with
    [path_parts] below. *)
Definition trim_one_slash (path : string) : string :=
  match path with
  | String "/" rest => rest
  | _ => path
  end.

Definition spec_parts (u : url.URL) : list string :=
  strings.Split (trim_one_slash (url.Path u)) "/".

(** A run of [k] slashes. *)
Fixpoint slashes (k : nat) : string :=
  match k with
  | O => EmptyString
  | S k' => String "/" (slashes k')
  end.

(** An integer as one writes it: an optional sign, then one decimal
    digit or more. *)
Definition is_digit (c : ascii) : bool :=
  ((48 <=? nat_of_ascii c) && (nat_of_ascii c <=? 57))%nat.

Fixpoint all_digits (s : string) : bool :=
  match s with
  | EmptyString => true
  | String c rest => is_digit c && all_digits rest
  end.

Definition is_decimal (s : string) : bool :=
  match s with
  | EmptyString => false
  | String c rest =>
      if Ascii.eqb c "-" || Ascii.eqb c "+"
      then negb (String.eqb rest "") && all_digits rest
      else all_digits s
  end.

(** ** The Commenter *)

Local Open Scope list_scope.

(** [github.IssueComment], by the two fields the package touches.  Both
    are pointers in Go: [None] is [nil]. *)
Record IssueComment : Type := {
  ID : option Z;
  Body : option string
}.

(** [*comment.ID] for a [comment] of type [*github.IssueComment]: there
    is an ID to read when neither pointer is [nil]. *)
Definition comment_ID (comment : option IssueComment) : option Z :=
  match comment with
  | Some ic => ID ic
  | None => None
  end.

(** How a computation ends: with a value, or in the run-time panic of a
    nil-pointer dereference. *)
Inductive Outcome (A : Type) : Type :=
| Done (a : A)
| Panic.
Arguments Done {A} a.
Arguments Panic {A}.

Section Commenter.

(** [World] is the state of everything outside the package: the GitHub
    service and whatever the two callbacks close over.  [PullRequest]
    is [*github.PullRequest], which the package only passes on. *)
Context {World PullRequest : Type}.

(** The calls that leave the package, with their arguments.  The
    [context.Context] every call receives and the [nil] options of
    [ListComments] are left out. *)
Inductive Call : Type :=
| CallGet (owner reponame : string) (number : Z)
| CallBody (pr : PullRequest)
| CallListComments (owner reponame : string) (number : Z)
| CallIsComment (comment : option IssueComment)
| CallEditComment (owner reponame : string) (commentID : Z) (newComment : IssueComment)
| CallCreateComment (owner reponame : string) (num : Z) (comment : IssueComment).

(** The two interfaces over the GitHub client.  Results the package
    drops (the [*github.Response], the comment sent back by a write)
    are left out. *)
Record prsIntf : Type := {
  Get : string -> string -> Z -> World -> (PullRequest * option error) * World
}.

Record issuesIntf : Type := {
  CreateComment : string -> string -> Z -> IssueComment -> World -> option error * World;
  EditComment : string -> string -> Z -> IssueComment -> World -> option error * World;
  ListComments :
    string -> string -> Z -> World -> (list (option IssueComment) * option error) * World
}.

Definition Matcher : Type := option IssueComment -> World -> bool * World.

(** [Commenter] is an object whose method [AddOrUpdate] adds a comment
    to a GitHub pull request or optionally updates an existing one.
    [IsComment], the exported field, may be nil: [None].  The three
    unexported fields are taken as set: [body] is a function, [prs] and
    [issues] are services one can call.  A Commenter with one of them
    nil (the zero value [Commenter{}], or one [NewCommenter] made from a
    nil body) panics in [AddOrUpdate] where that field is first called,
    at the fetch, the body or the listing; such values are not values of
    this type, and what is proved below is about Commenters whose three
    fields are set. *)
Record Commenter : Type := {
  IsComment : option Matcher;
  body : PullRequest -> World -> (string * option error) * World;
  prs : prsIntf;
  issues : issuesIntf
}.

(** [*github.Client], by the two services the package takes from it. *)
Record Client : Type := {
  PullRequests : prsIntf;
  Issues : issuesIntf
}.

(** [NewCommenter] creates a new Commenter object.  The body function is
    called to generate the new or updated comment body from a given pull
    request.  [IsComment] is left at its zero value, [nil].  The client
    and the body function are non-nil here, as [Client] and the type of
    [body] have them. *)
Definition NewCommenter (client : Client)
    (body : PullRequest -> World -> (string * option error) * World)
    : Commenter :=
  Build_Commenter None body (PullRequests client) (Issues client).

(** A computation threads the world and records the calls it makes, in
    the order it makes them. *)
Definition M (A : Type) : Type := World -> Outcome A * World * list Call.

Definition ret {A : Type} (a : A) : M A := fun w => (Done a, w, []).

Definition bind {A B : Type} (m : M A) (k : A -> M B) : M B :=
  fun w =>
    match m w with
    | (Done a, w1, l1) =>
        match k a w1 with
        | (o, w2, l2) => (o, w2, l1 ++ l2)
        end
    | (Panic, w1, l1) => (Panic, w1, l1)
    end.

Notation "x <- m ;; k" := (bind m (fun x => k))
  (at level 61, m at next level, right associativity).
Notation "' pat <- m ;; k" := (bind m (fun x => match x with pat => k end))
  (at level 61, pat pattern, m at next level, right associativity).

(** A call out of the package. *)
Definition call {A : Type} (ev : Call) (f : World -> A * World) : M A :=
  fun w => match f w with (a, w1) => (Done a, w1, [ev]) end.

(** [*p] *)
Definition deref {A : Type} (p : option A) : M A :=
  fun w =>
    match p with
    | Some a => (Done a, w, [])
    | None => (Panic, w, [])
    end.

(** [for _, comment := range comments { if c.IsComment(comment) { ...;
    return ... } }]: [Some e] when the loop body returned [e], [None]
    when the loop ran to its end. *)
Fixpoint range_comments (c : Commenter) (isComment : Matcher)
    (owner reponame : string) (issueComment : IssueComment)
    (comments : list (option IssueComment)) : M (option (option error)) :=
  match comments with
  | [] => ret None
  | comment :: rest =>
      matched <- call (CallIsComment comment) (isComment comment) ;;
      if matched : bool then
        id <- deref (comment_ID comment) ;;
        err <- call (CallEditComment owner reponame id issueComment)
                    (EditComment (issues c) owner reponame id issueComment) ;;
        ret (Some (errors.Wrap err "updating PR comment"))
      else range_comments c isComment owner reponame issueComment rest
  end.

Definition AddOrUpdate (c : Commenter) (owner reponame : string) (prnum : Z)
    : M (option error) :=
  '(pr, err) <- call (CallGet owner reponame prnum)
                     (Get (prs c) owner reponame prnum) ;;
  match err with
  | Some _ => ret (errors.Wrap err "getting pull request")
  | None =>
  '(body, err) <- call (CallBody pr) (body c pr) ;;
  match err with
  | Some _ => ret (errors.Wrap err "getting comment body")
  | None =>
  let issueComment := {| ID := None; Body := Some body |} in
  '(comments, err) <- call (CallListComments owner reponame prnum)
                           (ListComments (issues c) owner reponame prnum) ;;
  match err with
  | Some _ => ret (errors.Wrap err "listing PR comments")
  | None =>
  returned <- match IsComment c with
              | Some isComment =>
                  range_comments c isComment owner reponame issueComment comments
              | None => ret None
              end ;;
  match returned with
  | Some e => ret e
  | None =>
  err <- call (CallCreateComment owner reponame prnum issueComment)
              (CreateComment (issues c) owner reponame prnum issueComment) ;;
  ret (errors.Wrap err "adding PR comment")
  end end end end.

(** *** Reading a run *)

Definition outcome {A : Type} (r : Outcome A * World * list Call) : Outcome A :=
  fst (fst r).
Definition world_after {A : Type} (r : Outcome A * World * list Call) : World :=
  snd (fst r).
Definition calls {A : Type} (r : Outcome A * World * list Call) : list Call :=
  snd r.

Definition is_edit (ev : Call) : bool :=
  match ev with CallEditComment _ _ _ _ => true | _ => false end.
Definition is_create (ev : Call) : bool :=
  match ev with CallCreateComment _ _ _ _ => true | _ => false end.
Definition is_write (ev : Call) : bool := is_edit ev || is_create ev.

Definition edits (l : list Call) : nat := length (filter is_edit l).
Definition creates (l : list Call) : nat := length (filter is_create l).
Definition writes (l : list Call) : nat := length (filter is_write l).

(** The step of [AddOrUpdate] a call belongs to. *)
Definition step_of (ev : Call) : nat :=
  match ev with
  | CallGet _ _ _ => 0
  | CallBody _ => 1
  | CallListComments _ _ _ => 2
  | CallIsComment _ => 3
  | CallEditComment _ _ _ _ => 4
  | CallCreateComment _ _ _ _ => 4
  end.

(** Steps in order: each call belongs to a later step than the one
    before it, but for the matcher, which is asked again and again. *)
Fixpoint in_order (steps : list nat) : bool :=
  match steps with
  | a :: (b :: _) as rest =>
      ((a <? b) || ((a =? 3) && (b =? 3)))%nat && in_order rest
  | _ => true
  end.

(** The matcher asked about each comment of [l] in turn, the world
    threaded through: [Some w'] when it turns every one down. *)
Fixpoint rejects (isComment : Matcher) (l : list (option IssueComment))
    (w : World) : option World :=
  match l with
  | [] => Some w
  | comment :: rest =>
      match isComment comment w with
      | (true, _) => None
      | (false, w1) => rejects isComment rest w1
      end
  end.

(** The comments the matcher was asked about, in the order of the calls. *)
Definition asked (l : list Call) : list (option IssueComment) :=
  flat_map (fun ev => match ev with
                      | CallIsComment comment => [comment]
                      | _ => []
                      end) l.

(** The comments sent by the writes. *)
Definition sent (l : list Call) : list IssueComment :=
  flat_map (fun ev => match ev with
                      | CallEditComment _ _ _ newComment => [newComment]
                      | CallCreateComment _ _ _ comment => [comment]
                      | _ => []
                      end) l.

(** The IDs the edits were of. *)
Definition edited (l : list Call) : list Z :=
  flat_map (fun ev => match ev with
                      | CallEditComment _ _ commentID _ => [commentID]
                      | _ => []
                      end) l.

(** A call to the service is about the repository [owner]/[reponame]
    and, where it names a pull request, about [prnum]. *)
Definition addressed (owner reponame : string) (prnum : Z) (ev : Call) : bool :=
  match ev with
  | CallGet o r n =>
      String.eqb o owner && String.eqb r reponame && (n =? prnum)
  | CallListComments o r n =>
      String.eqb o owner && String.eqb r reponame && (n =? prnum)
  | CallCreateComment o r n _ =>
      String.eqb o owner && String.eqb r reponame && (n =? prnum)
  | CallEditComment o r _ _ =>
      String.eqb o owner && String.eqb r reponame
  | CallBody _ => true
  | CallIsComment _ => true
  end.

(** The five messages [AddOrUpdate] wraps an error in. *)
Definition labels : list string :=
  ["getting pull request"; "getting comment body"; "listing PR comments";
   "updating PR comment"; "adding PR comment"].

(** A matcher that only looks at the comment: it answers [p] and
    leaves the world as it is. *)
Definition pure_matcher (p : option IssueComment -> bool) : Matcher :=
  fun comment w => (p comment, w).

(** The first three steps went through: the pull request [pr] was
    fetched, the callback made the body [b] of it, and the listing gave
    [comments], leaving the world at [w3]. *)
Definition prepared (c : Commenter) (owner reponame : string) (prnum : Z)
    (w : World) (pr : PullRequest) (b : string)
    (comments : list (option IssueComment)) (w3 : World) : Prop :=
  exists w1 w2 : World,
    Get (prs c) owner reponame prnum w = ((pr, None), w1) /\
    body c pr w1 = ((b, None), w2) /\
    ListComments (issues c) owner reponame prnum w2 = ((comments, None), w3).

(** The calls of the first three steps. *)
Definition opening (owner reponame : string) (prnum : Z) (pr : PullRequest)
    : list Call :=
  [CallGet owner reponame prnum; CallBody pr; CallListComments owner reponame prnum].

(** The runs of [AddOrUpdate] from a world [w], one case for each way
    through the function: what it ends with, the world it leaves and the
    calls it made.  [AddOrUpdate_runs] below shows that every run is one
    of these. *)
Inductive Run (c : Commenter) (owner reponame : string) (prnum : Z) (w : World)
    : Outcome (option error) * World * list Call -> Prop :=
| run_get_fails (pr : PullRequest) (e : error) (w1 : World) :
    Get (prs c) owner reponame prnum w = ((pr, Some e), w1) ->
    Run c owner reponame prnum w
      (Done (Some (Wrapped e "getting pull request")), w1,
       [CallGet owner reponame prnum])
| run_body_fails (pr : PullRequest) (b : string) (e : error) (w1 w2 : World) :
    Get (prs c) owner reponame prnum w = ((pr, None), w1) ->
    body c pr w1 = ((b, Some e), w2) ->
    Run c owner reponame prnum w
      (Done (Some (Wrapped e "getting comment body")), w2,
       [CallGet owner reponame prnum; CallBody pr])
| run_list_fails (pr : PullRequest) (b : string)
    (comments : list (option IssueComment)) (e : error) (w1 w2 w3 : World) :
    Get (prs c) owner reponame prnum w = ((pr, None), w1) ->
    body c pr w1 = ((b, None), w2) ->
    ListComments (issues c) owner reponame prnum w2 = ((comments, Some e), w3) ->
    Run c owner reponame prnum w
      (Done (Some (Wrapped e "listing PR comments")), w3,
       opening owner reponame prnum pr)
| run_create_no_matcher (pr : PullRequest) (b : string)
    (comments : list (option IssueComment)) (w3 : World) :
    prepared c owner reponame prnum w pr b comments w3 ->
    IsComment c = None ->
    let issueComment := {| ID := None; Body := Some b |} in
    let written := CreateComment (issues c) owner reponame prnum issueComment w3 in
    Run c owner reponame prnum w
      (Done (errors.Wrap (fst written) "adding PR comment"), snd written,
       opening owner reponame prnum pr
       ++ [CallCreateComment owner reponame prnum issueComment])
| run_create_unmatched (pr : PullRequest) (b : string)
    (comments : list (option IssueComment)) (isComment : Matcher) (w3 w4 : World) :
    prepared c owner reponame prnum w pr b comments w3 ->
    IsComment c = Some isComment ->
    rejects isComment comments w3 = Some w4 ->
    let issueComment := {| ID := None; Body := Some b |} in
    let written := CreateComment (issues c) owner reponame prnum issueComment w4 in
    Run c owner reponame prnum w
      (Done (errors.Wrap (fst written) "adding PR comment"), snd written,
       opening owner reponame prnum pr
       ++ map CallIsComment comments
       ++ [CallCreateComment owner reponame prnum issueComment])
| run_edit (pr : PullRequest) (b : string)
    (pre post : list (option IssueComment)) (comment : option IssueComment)
    (isComment : Matcher) (id : Z) (w3 w4 w5 : World) :
    prepared c owner reponame prnum w pr b (pre ++ comment :: post) w3 ->
    IsComment c = Some isComment ->
    rejects isComment pre w3 = Some w4 ->
    isComment comment w4 = (true, w5) ->
    comment_ID comment = Some id ->
    let issueComment := {| ID := None; Body := Some b |} in
    let written := EditComment (issues c) owner reponame id issueComment w5 in
    Run c owner reponame prnum w
      (Done (errors.Wrap (fst written) "updating PR comment"), snd written,
       opening owner reponame prnum pr
       ++ map CallIsComment pre
       ++ [CallIsComment comment; CallEditComment owner reponame id issueComment])
| run_panic (pr : PullRequest) (b : string)
    (pre post : list (option IssueComment)) (comment : option IssueComment)
    (isComment : Matcher) (w3 w4 w5 : World) :
    prepared c owner reponame prnum w pr b (pre ++ comment :: post) w3 ->
    IsComment c = Some isComment ->
    rejects isComment pre w3 = Some w4 ->
    isComment comment w4 = (true, w5) ->
    comment_ID comment = None ->
    Run c owner reponame prnum w
      (Panic, w5,
       opening owner reponame prnum pr
       ++ map CallIsComment pre ++ [CallIsComment comment]).

End Commenter.

Arguments Call : clear implicits.
Arguments prsIntf : clear implicits.
Arguments issuesIntf : clear implicits.
Arguments Commenter : clear implicits.
Arguments Matcher : clear implicits.
Arguments Client : clear implicits.

(** ** A test double

    A service that keeps the comments of pull request 42 of each
    repository, as the package's tests would set one up.  The world is
    the list of comments.  The pull request handed to the body callback
    is its number.  Looking up another pull request fails, listing fails
    on the repository ["locked"], and a write with an empty body is
    refused. *)
Module fake.

Definition World : Type := list (option IssueComment).
Definition PullRequest : Type := Z.

Definition notFound : error := External "404 Not Found".
Definition forbidden : error := External "403 Forbidden".
Definition unprocessable : error := External "422 Validation Failed".

Definition get (owner reponame : string) (number : Z) (w : World)
    : (PullRequest * option error) * World :=
  if number =? 42 then ((number, None), w) else ((0, Some notFound), w).

Definition listComments (owner reponame : string) (number : Z) (w : World)
    : (list (option IssueComment) * option error) * World :=
  if String.eqb reponame "locked" then (([], Some forbidden), w)
  else ((w, None), w).

Definition has_ID (id : Z) (comment : option IssueComment) : bool :=
  match comment_ID comment with
  | Some i => i =? id
  | None => false
  end.

Definition next_ID (w : World) : Z :=
  1 + fold_right (fun comment m =>
                    match comment_ID comment with
                    | Some i => Z.max i m
                    | None => m
                    end) 0 w.

Definition empty_body (comment : IssueComment) : bool :=
  match Body comment with
  | Some b => String.eqb b ""
  | None => true
  end.

Definition editComment (owner reponame : string) (commentID : Z)
    (newComment : IssueComment) (w : World) : option error * World :=
  if empty_body newComment then (Some unprocessable, w)
  else if existsb (has_ID commentID) w then
    (None,
     map (fun comment =>
            if has_ID commentID comment
            then Some {| ID := Some commentID; Body := Body newComment |}
            else comment) w)
  else (Some notFound, w).

Definition createComment (owner reponame : string) (num : Z)
    (comment : IssueComment) (w : World) : option error * World :=
  if empty_body comment then (Some unprocessable, w)
  else (None, w ++ [Some {| ID := Some (next_ID w); Body := Body comment |}]).

Definition pullRequests : prsIntf World PullRequest := {| Get := get |}.

Definition issueService : issuesIntf World := {|
  CreateComment := createComment;
  EditComment := editComment;
  ListComments := listComments
|}.

(** A matcher that looks at the comment only: it accepts the comments
    whose body starts with [marker]. *)
Definition marked (marker : string) : Matcher World :=
  fun comment w =>
    (match comment with
     | Some {| Body := Some b |} => strings.HasPrefix b marker
     | _ => false
     end, w).

(** A body callback: the text, or an error for an empty text. *)
Definition say (text : string) (pr : PullRequest) (w : World)
    : (string * option error) * World :=
  ((text, None), w).

Definition failing_body (pr : PullRequest) (w : World)
    : (string * option error) * World :=
  (("", Some (External "no report")), w).

Definition commenter (isComment : option (Matcher World)) (text : string)
    : Commenter World PullRequest :=
  {| IsComment := isComment; body := say text;
     prs := pullRequests; issues := issueService |}.

(** A commenter whose body callback fails. *)
Definition mute (isComment : option (Matcher World))
    : Commenter World PullRequest :=
  {| IsComment := isComment; body := failing_body;
     prs := pullRequests; issues := issueService |}.

Definition old (id : Z) (text : string) : option IssueComment :=
  Some {| ID := Some id; Body := Some text |}.

(** Three comments, two of them earlier reports. *)
Definition thread : World :=
  [old 1 "LGTM"; old 2 "report: 3 failures"; old 3 "report: 1 failure"].

(** The same, the first report having come without an ID. *)
Definition thread_no_ID : World :=
  [old 1 "LGTM"; Some {| ID := None; Body := Some "report: 3 failures" |};
   old 3 "report: 1 failure"].

End fake.

(** * Properties of [ParsePR] *)

Section ParsePR_facts.

Variable url_Parse : string -> url.URL + error.

(** Once the URL has parsed, [ParsePR] is a function of the parts. *)
Lemma ParsePR_parsed (pr : string) (u : url.URL) :
  url_Parse pr = inl u ->
  ParsePR url_Parse pr =
    let parts := path_parts u in
    if (length parts <? 4)%nat then
      zeroed (Some (TooFewPathElements (length parts)))
    else if negb (String.eqb (nth 2 parts "") "pull") then
      zeroed (Some NotExpectedFormat)
    else
      {| host := url.Host u;
         owner := nth 0 parts "";
         reponame := nth 1 parts "";
         prnum := fst (strconv.Atoi (nth 3 parts ""));
         err := errors.Wrap (snd (strconv.Atoi (nth 3 parts "")))
                  "parsing number from GitHub pull-request URL" |}.
Proof.
  intros Hu. unfold ParsePR. rewrite Hu. cbv zeta.
  destruct (length (path_parts u) <? 4)%nat; [reflexivity|].
  destruct (negb _); [reflexivity|].
  destruct (strconv.Atoi _); reflexivity.
Qed.

Lemma ParsePR_too_few (pr : string) (u : url.URL) :
  url_Parse pr = inl u ->
  (length (path_parts u) < 4)%nat ->
  ParsePR url_Parse pr = zeroed (Some (TooFewPathElements (length (path_parts u)))).
Proof.
  intros Hu Hlen. rewrite (ParsePR_parsed _ _ Hu). cbv zeta.
  apply Nat.ltb_lt in Hlen. rewrite Hlen. reflexivity.
Qed.

Lemma ParsePR_not_pull (pr : string) (u : url.URL) :
  url_Parse pr = inl u ->
  (4 <= length (path_parts u))%nat ->
  nth 2 (path_parts u) "" <> "pull" ->
  ParsePR url_Parse pr = zeroed (Some NotExpectedFormat).
Proof.
  intros Hu Hlen Hpull. rewrite (ParsePR_parsed _ _ Hu). cbv zeta.
  apply Nat.ltb_ge in Hlen. rewrite Hlen.
  apply String.eqb_neq in Hpull. rewrite Hpull. reflexivity.
Qed.

Lemma ParsePR_number (pr : string) (u : url.URL) (n : Z) (e : option error) :
  url_Parse pr = inl u ->
  (4 <= length (path_parts u))%nat ->
  nth 2 (path_parts u) "" = "pull" ->
  strconv.Atoi (nth 3 (path_parts u) "") = (n, e) ->
  ParsePR url_Parse pr =
    {| host := url.Host u;
       owner := nth 0 (path_parts u) "";
       reponame := nth 1 (path_parts u) "";
       prnum := n;
       err := errors.Wrap e "parsing number from GitHub pull-request URL" |}.
Proof.
  intros Hu Hlen Hpull Hn. rewrite (ParsePR_parsed _ _ Hu). cbv zeta.
  apply Nat.ltb_ge in Hlen. rewrite Hlen.
  apply String.eqb_eq in Hpull. rewrite Hpull, Hn. reflexivity.
Qed.

End ParsePR_facts.

(** ** [strconv.Atoi] and written integers *)

Lemma digit_is_digit (c : ascii) :
  strconv.digit c = None <-> is_digit c = false.
Proof.
  unfold strconv.digit, is_digit.
  destruct (Nat.leb_spec 48 (nat_of_ascii c));
    destruct (Nat.leb_spec (nat_of_ascii c) 57);
    destruct (Z.leb_spec 48 (Z.of_nat (nat_of_ascii c)));
    destruct (Z.leb_spec (Z.of_nat (nat_of_ascii c)) 57);
    cbn; split; intros; try congruence; lia.
Qed.

(** The digit loop ends in one of three ways. *)
Lemma digits_cases (s : string) (n : Z) :
  strconv.digits s n = (0, Some ErrSyntax) \/
  strconv.digits s n = (strconv.maxVal, Some ErrRange) \/
  exists v : Z, strconv.digits s n = (v, None).
Proof.
  revert n. induction s as [|c rest IH]; intros n; cbn [strconv.digits].
  - right. right. exists n. reflexivity.
  - destruct (strconv.digit c) as [d|]; [|left; reflexivity].
    destruct (strconv.cutoff10 <=? n); [right; left; reflexivity|].
    destruct (strconv.maxVal <? n * 10 + d); [right; left; reflexivity|].
    apply IH.
Qed.

(** It ends with a number only when every byte was a digit. *)
Lemma digits_number_all_digits (s : string) (n v : Z) :
  strconv.digits s n = (v, None) -> all_digits s = true.
Proof.
  revert n. induction s as [|c rest IH]; intros n; cbn [strconv.digits all_digits];
    [reflexivity|].
  destruct (strconv.digit c) as [d|] eqn:Hd; [|discriminate].
  destruct (strconv.cutoff10 <=? n); [discriminate|].
  destruct (strconv.maxVal <? n * 10 + d); [discriminate|].
  intros H. rewrite (IH _ H), andb_true_r.
  destruct (is_digit c) eqn:Hc; [reflexivity|].
  apply digit_is_digit in Hc. congruence.
Qed.

(** It ends with a syntax error only when some byte was no digit. *)
Lemma digits_syntax_not_all_digits (s : string) (n : Z) :
  strconv.digits s n = (0, Some ErrSyntax) -> all_digits s = false.
Proof.
  revert n. induction s as [|c rest IH]; intros n; cbn [strconv.digits all_digits];
    [discriminate|].
  destruct (strconv.digit c) as [d|] eqn:Hd.
  - destruct (strconv.cutoff10 <=? n); [discriminate|].
    destruct (strconv.maxVal <? n * 10 + d); [discriminate|].
    intros H. rewrite (IH _ H). apply andb_false_r.
  - intros _. apply digit_is_digit in Hd. now rewrite Hd.
Qed.

(** A range error of the digit loop comes with [maxVal]. *)
Lemma digits_range_maxVal (s : string) (n v : Z) :
  strconv.digits s n = (v, Some ErrRange) -> v = strconv.maxVal.
Proof.
  destruct (digits_cases s n) as [H | [H | [v' H]]]; rewrite H; congruence.
Qed.

(** [strconv.Atoi] on a string that is not empty, by what the digit
    loop gives on the string without its sign. *)
Lemma Atoi_unfold (c : ascii) (rest : string) :
  strconv.Atoi (String c rest) =
  let neg := Ascii.eqb c "-" in
  let body := if neg || Ascii.eqb c "+" then rest else String c rest in
  match body with
  | EmptyString => (0, Some (NumError "Atoi" (String c rest) ErrSyntax))
  | _ =>
      match strconv.digits body 0 with
      | (_, Some ErrSyntax) => (0, Some (NumError "Atoi" (String c rest) ErrSyntax))
      | (un, _) =>
          if negb neg && (9223372036854775808 <=? un)
          then (strconv.MaxInt, Some (NumError "Atoi" (String c rest) ErrRange))
          else if neg && (9223372036854775808 <? un)
          then (strconv.MinInt, Some (NumError "Atoi" (String c rest) ErrRange))
          else (if neg then - un else un, None)
      end
  end.
Proof.
  unfold strconv.Atoi, strconv.ParseInt, strconv.ParseUint. cbv zeta.
  change (2 ^ (strconv.IntSize - 1)) with 9223372036854775808.
  destruct (if Ascii.eqb c "-" || Ascii.eqb c "+" then rest else String c rest)
    as [|c' body']; [reflexivity|].
  destruct (strconv.digits (String c' body') 0) as [un [[|]|]];
    try reflexivity;
    destruct (negb (Ascii.eqb c "-") && (9223372036854775808 <=? un));
    try reflexivity;
    destruct (Ascii.eqb c "-" && (9223372036854775808 <? un)); reflexivity.
Qed.

(** [strconv.Atoi] ends in one of four ways: a syntax error with 0, a
    range error with [math.MaxInt], a range error with [math.MinInt]
    after a minus sign, or a number. *)
Lemma Atoi_cases (s : string) :
  strconv.Atoi s = (0, Some (NumError "Atoi" s ErrSyntax)) \/
  (strconv.Atoi s = (strconv.MaxInt, Some (NumError "Atoi" s ErrRange))
   /\ strings.HasPrefix s "-" = false) \/
  (strconv.Atoi s = (strconv.MinInt, Some (NumError "Atoi" s ErrRange))
   /\ strings.HasPrefix s "-" = true) \/
  exists n : Z, strconv.Atoi s = (n, None).
Proof.
  destruct s as [|c rest]; [left; reflexivity|].
  rewrite Atoi_unfold. cbv zeta. cbn [strings.HasPrefix]. rewrite andb_true_r.
  destruct (if Ascii.eqb c "-" || Ascii.eqb c "+" then rest else String c rest)
    as [|c' body']; [left; reflexivity|].
  destruct (strconv.digits (String c' body') 0) as [un [[|]|]];
    [left; reflexivity | |];
    destruct (Ascii.eqb c "-"); cbn [negb andb];
    try (destruct (9223372036854775808 <=? un));
    try (destruct (9223372036854775808 <? un));
    eauto 6.
Qed.

(** What [strconv.Atoi] reads as a number is written as an integer. *)
Lemma Atoi_number_decimal (s : string) (n : Z) :
  strconv.Atoi s = (n, None) -> is_decimal s = true.
Proof.
  destruct s as [|c rest]; [discriminate|].
  rewrite Atoi_unfold. cbv zeta. unfold is_decimal.
  destruct (Ascii.eqb c "-" || Ascii.eqb c "+").
  - destruct rest as [|c' rest']; [discriminate|]. cbn [String.eqb negb andb].
    destruct (strconv.digits (String c' rest') 0) as [un [[|]|]] eqn:Hdigits;
      try discriminate.
    + apply digits_range_maxVal in Hdigits. subst un.
      destruct (Ascii.eqb c "-"); discriminate.
    + intros _. exact (digits_number_all_digits _ _ _ Hdigits).
  - destruct (strconv.digits (String c rest) 0) as [un [[|]|]] eqn:Hdigits;
      try discriminate.
    + apply digits_range_maxVal in Hdigits. subst un.
      destruct (Ascii.eqb c "-"); discriminate.
    + intros _. exact (digits_number_all_digits _ _ _ Hdigits).
Qed.

(** What is not written as an integer gets an error from
    [strconv.Atoi]: a syntax error, or a range error when its digits
    overflow before the byte that is no digit is reached. *)
Lemma Atoi_not_decimal (s : string) :
  is_decimal s = false ->
  exists (n : Z) (cause : NumErrCause),
    strconv.Atoi s = (n, Some (NumError "Atoi" s cause)).
Proof.
  intros Hdec.
  destruct (Atoi_cases s) as [H | [[H _] | [[H _] | [n H]]]]; eauto.
  apply Atoi_number_decimal in H. congruence.
Qed.

(** ** Trimming and splitting *)

Lemma TrimLeft_removes_slashes (path : string) :
  exists k : nat,
    path = (slashes k ++ strings.TrimLeft path "/")%string /\
    strings.HasPrefix (strings.TrimLeft path "/") "/" = false.
Proof.
  induction path as [|c rest IH].
  - exists O. split; reflexivity.
  - cbn [strings.TrimLeft strings.contains]. rewrite orb_false_r.
    destruct (Ascii.eqb_spec c "/") as [->|Hc].
    + destruct IH as [k [Hk Hp]]. exists (S k). split; [|exact Hp].
      cbn [slashes String.append]. f_equal. exact Hk.
    + exists O. split; [reflexivity|].
      cbn. apply Ascii.eqb_neq in Hc. rewrite Hc. reflexivity.
Qed.

(** One slash or all of them: the same, unless the path starts with two. *)
Lemma TrimLeft_one_slash (path : string) :
  strings.HasPrefix path "//" = false ->
  strings.TrimLeft path "/" = trim_one_slash path.
Proof.
  destruct path as [|c rest]; [reflexivity|].
  cbn [strings.TrimLeft strings.contains trim_one_slash]. rewrite orb_false_r.
  destruct (Ascii.eqb_spec c "/") as [->|Hc].
  - destruct rest as [|d rest']; [reflexivity|].
    cbn [strings.TrimLeft strings.contains]. rewrite orb_false_r.
    destruct (Ascii.eqb_spec d "/") as [->|Hd]; [|reflexivity].
    cbn. discriminate.
  - intros _. clear - Hc. destruct c as [[] [] [] [] [] [] [] []]; try reflexivity.
    congruence.
Qed.

Lemma append_empty_r (s : string) : (s ++ "")%string = s.
Proof. induction s as [|c rest IH]; cbn; [reflexivity | now rewrite IH]. Qed.

Lemma append_snoc (s t : string) (c : ascii) :
  ((s ++ String c EmptyString) ++ t)%string = (s ++ String c t)%string.
Proof. induction s as [|d rest IH]; cbn; [reflexivity | now rewrite IH]. Qed.

(** The first piece of a split starts with what had been read. *)
Lemma split_from_head (s cur : string) (sep : ascii) :
  exists (tail : string) (more : list string),
    strings.split_from cur s sep = (cur ++ tail)%string :: more.
Proof.
  revert cur. induction s as [|c rest IH]; intros cur; cbn.
  - exists EmptyString, []. now rewrite append_empty_r.
  - destruct (Ascii.eqb c sep).
    + exists EmptyString, (strings.split_from EmptyString rest sep).
      now rewrite append_empty_r.
    + destruct (IH (cur ++ String c EmptyString)%string) as [tail [more H]].
      exists (String c tail), more. rewrite H. f_equal.
      apply append_snoc.
Qed.

(** A piece without a separator, then a separator: the piece is split off. *)
Lemma split_from_piece (a cur s : string) (sep : ascii) :
  strings.contains a sep = false ->
  strings.split_from cur (a ++ String sep s)%string sep
  = (cur ++ a)%string :: strings.split_from EmptyString s sep.
Proof.
  revert cur. induction a as [|c rest IH]; intros cur; cbn.
  - intros _. rewrite Ascii.eqb_refl, append_empty_r. reflexivity.
  - rewrite Ascii.eqb_sym. destruct (Ascii.eqb c sep); [discriminate|].
    cbn. intros Hrest. rewrite (IH _ Hrest), append_snoc. reflexivity.
Qed.

(** A piece without a separator, and nothing after: one piece. *)
Lemma split_from_last (a cur : string) (sep : ascii) :
  strings.contains a sep = false ->
  strings.split_from cur a sep = [(cur ++ a)%string].
Proof.
  revert cur. induction a as [|c rest IH]; intros cur; cbn.
  - intros _. now rewrite append_empty_r.
  - rewrite Ascii.eqb_sym. destruct (Ascii.eqb c sep); [discriminate|].
    cbn. intros Hrest. rewrite (IH _ Hrest), append_snoc. reflexivity.
Qed.

(** The parts of a path /OWNER/REPO/pull/NUMBER, with or without more
    segments behind it. *)
Lemma path_parts_pull (u : url.URL) (o r num rest : string) :
  url.Path u = ("/" ++ o ++ "/" ++ r ++ "/pull/" ++ num ++ rest)%string ->
  o <> "" ->
  strings.contains o "/" = false ->
  strings.contains r "/" = false ->
  strings.contains num "/" = false ->
  rest = "" \/ (exists more, rest = String "/" more) ->
  exists trailing : list string,
    path_parts u = o :: r :: "pull" :: num :: trailing.
Proof.
  intros Hpath Ho Hno Hnr Hnn Hrest. unfold path_parts. rewrite Hpath.
  cbn [String.append strings.TrimLeft strings.contains Ascii.eqb Bool.eqb orb].
  destruct o as [|c o']; [congruence|].
  assert (Hc : Ascii.eqb c "/" = false).
  { cbn [strings.contains] in Hno. rewrite Ascii.eqb_sym in Hno.
    destruct (Ascii.eqb c "/"); [discriminate | reflexivity]. }
  cbn [String.append strings.TrimLeft strings.contains]. rewrite Hc.
  cbn [orb]. unfold strings.Split.
  change (String c (o' ++ String "/" (r ++ String "/" (String "p" (String "u"
            (String "l" (String "l" (String "/" (num ++ rest))))))))%string)
    with (String c o' ++ String "/" (r ++ String "/" ("pull" ++ String "/"
            (num ++ rest))))%string.
  rewrite (split_from_piece _ _ _ _ Hno), (split_from_piece _ _ _ _ Hnr).
  rewrite (split_from_piece "pull" _ _ "/" eq_refl).
  destruct Hrest as [-> | [more ->]].
  - exists []. now rewrite append_empty_r, (split_from_last _ _ _ Hnn).
  - exists (strings.split_from EmptyString more "/").
    now rewrite (split_from_piece _ _ _ _ Hnn).
Qed.

(** A trimmed path has an empty first part only when nothing is left of it. *)
Lemma path_parts_first_empty (u : url.URL) :
  nth 0 (path_parts u) "" = "" -> path_parts u = [""].
Proof.
  unfold path_parts. cbv zeta.
  destruct (TrimLeft_removes_slashes (url.Path u)) as [k [_ Hp]].
  destruct (strings.TrimLeft (url.Path u) "/") as [|c rest]; [reflexivity|].
  cbn in Hp. rewrite andb_true_r in Hp.
  unfold strings.Split. cbn [strings.split_from]. rewrite Hp.
  destruct (split_from_head rest (String c EmptyString) "/") as [tail [more H]].
  cbn [String.append] in H |- *. rewrite H. cbn. discriminate.
Qed.

(** Some slashes in front of a string that starts with none: trimming
    gives that string back. *)
Lemma TrimLeft_slashes (k : nat) (trimmed : string) :
  strings.HasPrefix trimmed "/" = false ->
  strings.TrimLeft (slashes k ++ trimmed)%string "/" = trimmed.
Proof.
  intros Hp. induction k as [|k IH]; [|exact IH].
  destruct trimmed as [|c rest]; [reflexivity|].
  cbn in Hp. rewrite andb_true_r in Hp.
  cbn [slashes String.append strings.TrimLeft strings.contains].
  now rewrite Hp.
Qed.

(** An empty first part: the path was slashes and nothing else. *)
Lemma path_parts_first_empty_slashes (u : url.URL) :
  nth 0 (path_parts u) "" = "" -> exists k : nat, url.Path u = slashes k.
Proof.
  unfold path_parts. cbv zeta.
  destruct (TrimLeft_removes_slashes (url.Path u)) as [k [Hk Hp]].
  destruct (strings.TrimLeft (url.Path u) "/") as [|c rest].
  - intros _. exists k. now rewrite append_empty_r in Hk.
  - cbn in Hp. rewrite andb_true_r in Hp.
    unfold strings.Split. cbn [strings.split_from]. rewrite Hp.
    destruct (split_from_head rest (String c EmptyString) "/") as [tail [more H]].
    cbn [String.append] in H |- *. rewrite H. cbn. discriminate.
Qed.

(** A path of slashes and nothing else has one part, the empty one. *)
Lemma path_parts_slashes (u : url.URL) (k : nat) :
  url.Path u = slashes k -> path_parts u = [""].
Proof.
  intros Hk. unfold path_parts. cbv zeta.
  rewrite Hk, <- (append_empty_r (slashes k)).
  now rewrite (TrimLeft_slashes k "" eq_refl).
Qed.

(** What a successful [ParsePR] returns, it read off [path_parts]. *)
Lemma ParsePR_success (url_Parse : string -> url.URL + error)
    (pr : string) (u : url.URL) :
  url_Parse pr = inl u ->
  err (ParsePR url_Parse pr) = None ->
  (4 <= length (path_parts u))%nat /\
  host (ParsePR url_Parse pr) = url.Host u /\
  owner (ParsePR url_Parse pr) = nth 0 (path_parts u) "" /\
  reponame (ParsePR url_Parse pr) = nth 1 (path_parts u) "" /\
  nth 2 (path_parts u) "" = "pull" /\
  strconv.Atoi (nth 3 (path_parts u) "") = (prnum (ParsePR url_Parse pr), None).
Proof.
  intros Hu. rewrite (ParsePR_parsed _ _ _ Hu). cbv zeta.
  destruct (Nat.ltb_spec (length (path_parts u)) 4); [discriminate|].
  destruct (String.eqb_spec (nth 2 (path_parts u) "") "pull"); [|discriminate].
  cbn. destruct (strconv.Atoi _) as [n [e'|]]; [discriminate|].
  intros _. repeat split; assumption.
Qed.

(** ** The claims about [ParsePR] *)

(** C5: [ParsePR] reports the first requirement a URL breaks, in the
    order of the checks.  Fewer than four parts give the too-few error
    (with the count); otherwise a third part other than ["pull"] gives
    the format error; otherwise a fourth part that [strconv.Atoi] turns
    down, one not written as an integer in particular, gives the wrapped
    number error, the [*strconv.NumError] about that part, of cause
    syntax or range.  (A string [url.Parse] refuses never gets that
    far: it gets the wrapped parse error.)  The URL
    https://github.com/acme/widgets/issues/42 gets the format error,
    though its fourth part is a number. *)
Theorem C5_ParsePR_first_violation :
  (forall (url_Parse : string -> url.URL + error) (pr : string) (u : url.URL),
      url_Parse pr = inl u ->
      let parts := path_parts u in
      let e := err (ParsePR url_Parse pr) in
      ((length parts < 4)%nat ->
       e = Some (TooFewPathElements (length parts))) /\
      ((4 <= length parts)%nat -> nth 2 parts "" <> "pull" ->
       e = Some NotExpectedFormat) /\
      ((4 <= length parts)%nat -> nth 2 parts "" = "pull" ->
       is_decimal (nth 3 parts "") = false ->
       exists cause : NumErrCause,
         e = Some (Wrapped (NumError "Atoi" (nth 3 parts "") cause)
                     "parsing number from GitHub pull-request URL")) /\
      ((4 <= length parts)%nat -> nth 2 parts "" = "pull" ->
       forall (n : Z) (cause : error),
         strconv.Atoi (nth 3 parts "") = (n, Some cause) ->
         e = Some (Wrapped cause "parsing number from GitHub pull-request URL")))
  /\ (forall (url_Parse : string -> url.URL + error) (pr : string) (e : error),
         url_Parse pr = inr e ->
         err (ParsePR url_Parse pr)
         = Some (Wrapped e "parsing GitHub pull-request URL"))
  /\ err (ParsePR url.Parse "https://github.com/acme/widgets/issues/42")
     = Some NotExpectedFormat.
Proof.
  split; [|split; [|reflexivity]];
    [|intros url_Parse pr e Hu; unfold ParsePR; rewrite Hu; reflexivity].
  intros url_Parse pr u Hu parts e. subst parts e. repeat split.
  - intros Hlen. now rewrite (ParsePR_too_few _ _ _ Hu Hlen).
  - intros Hlen Hpull. now rewrite (ParsePR_not_pull _ _ _ Hu Hlen Hpull).
  - intros Hlen Hpull Hdec.
    destruct (Atoi_not_decimal _ Hdec) as (n & cause & Hn).
    exists cause. rewrite (ParsePR_number _ _ _ _ _ Hu Hlen Hpull Hn).
    reflexivity.
  - intros Hlen Hpull n cause Hn.
    rewrite (ParsePR_number _ _ _ _ _ Hu Hlen Hpull Hn). reflexivity.
Qed.

(** The three failures of C5 on four URLs; the last has a fourth part
    whose digits overflow before its last byte is read. *)
Lemma C5_ParsePR_first_violation_witness :
  err (ParsePR url.Parse "https://github.com/acme/pull")
  = Some (TooFewPathElements 2) /\
  err (ParsePR url.Parse "https://github.com/acme/widgets/issues/42")
  = Some NotExpectedFormat /\
  err (ParsePR url.Parse "https://github.com/acme/widgets/pull/abc")
  = Some (Wrapped (NumError "Atoi" "abc" ErrSyntax)
            "parsing number from GitHub pull-request URL") /\
  err (ParsePR url.Parse "https://github.com/acme/widgets/pull/99999999999999999999x")
  = Some (Wrapped (NumError "Atoi" "99999999999999999999x" ErrRange)
            "parsing number from GitHub pull-request URL").
Proof.
  pose (at_path p := {| url.Scheme := "https"; url.Opaque := ""; url.Host := "github.com";
                        url.Path := p; url.RawQuery := ""; url.Fragment := "" |}).
  split; [|split; [|split]].
  - refine (proj1 (proj1 C5_ParsePR_first_violation url.Parse
                     "https://github.com/acme/pull" (at_path "/acme/pull") eq_refl) _).
    vm_compute. lia.
  - refine (proj1 (proj2 (proj1 C5_ParsePR_first_violation url.Parse
                     "https://github.com/acme/widgets/issues/42"
                     (at_path "/acme/widgets/issues/42") eq_refl)) _ _).
    + vm_compute. lia.
    + vm_compute. discriminate.
  - refine (proj2 (proj2 (proj2 (proj1 C5_ParsePR_first_violation url.Parse
                     "https://github.com/acme/widgets/pull/abc"
                     (at_path "/acme/widgets/pull/abc") eq_refl))) _ _
                  0 (NumError "Atoi" "abc" ErrSyntax) _).
    + vm_compute. lia.
    + reflexivity.
    + reflexivity.
  - refine (proj2 (proj2 (proj2 (proj1 C5_ParsePR_first_violation url.Parse
                     "https://github.com/acme/widgets/pull/99999999999999999999x"
                     (at_path "/acme/widgets/pull/99999999999999999999x") eq_refl))) _ _
                  9223372036854775807
                  (NumError "Atoi" "99999999999999999999x" ErrRange) _).
    + vm_compute. lia.
    + reflexivity.
    + reflexivity.
Defined.

(** C6: [ParsePR] on https://github.com/acme/widgets/pull/42 returns the
    host github.com, the owner acme, the repository widgets, the number
    42 and a nil error; so it does with any parser that reads that host
    and the path /acme/widgets/pull/42 in the URL. *)
Theorem C6_ParsePR_example :
  ParsePR url.Parse "https://github.com/acme/widgets/pull/42"
  = {| host := "github.com"; owner := "acme"; reponame := "widgets";
       prnum := 42; err := None |}
  /\ forall (url_Parse : string -> url.URL + error) (u : url.URL),
      url_Parse "https://github.com/acme/widgets/pull/42" = inl u ->
      url.Host u = "github.com" ->
      url.Path u = "/acme/widgets/pull/42" ->
      ParsePR url_Parse "https://github.com/acme/widgets/pull/42"
      = {| host := "github.com"; owner := "acme"; reponame := "widgets";
           prnum := 42; err := None |}.
Proof.
  split; [reflexivity|].
  intros url_Parse u Hu Hhost Hpath.
  assert (Hparts : path_parts u = ["acme"; "widgets"; "pull"; "42"])
    by (unfold path_parts; rewrite Hpath; reflexivity).
  rewrite (ParsePR_number url_Parse _ u 42 None Hu);
    rewrite Hparts; cbn [nth length]; try reflexivity; try lia.
  now rewrite Hhost.
Qed.

(** C6 on the model of [url.Parse], through its general half. *)
Lemma C6_ParsePR_example_witness :
  ParsePR url.Parse "https://github.com/acme/widgets/pull/42"
  = {| host := "github.com"; owner := "acme"; reponame := "widgets";
       prnum := 42; err := None |}.
Proof.
  exact (proj2 C6_ParsePR_example url.Parse
           {| url.Scheme := "https"; url.Opaque := ""; url.Host := "github.com";
              url.Path := "/acme/widgets/pull/42"; url.RawQuery := "";
              url.Fragment := "" |}
           eq_refl eq_refl eq_refl).
Defined.

(** C7, as the code has it: [ParsePR] takes every leading slash off the
    path, not one, and splits what is left on slashes.  The path is some
    slashes followed by the trimmed path, which starts with none, and
    the parts are the split of the trimmed path.  For every URL the
    parser accepts, what [ParsePR] checks and returns is read off the
    split of the path without all its leading slashes: the count, the
    third part, the owner, the repository and the number.  The parts
    agree with the one-slash reading whenever the path does not start
    with two slashes.  The first part is empty only when the path is
    slashes and nothing else, and then it is the only part. *)
Theorem C7_ParsePR_trims_every_leading_slash :
  (forall u : url.URL,
      exists k : nat,
        url.Path u = (slashes k ++ strings.TrimLeft (url.Path u) "/")%string /\
        strings.HasPrefix (strings.TrimLeft (url.Path u) "/") "/" = false /\
        path_parts u = strings.Split (strings.TrimLeft (url.Path u) "/") "/") /\
  (forall (url_Parse : string -> url.URL + error) (pr : string) (u : url.URL)
          (k : nat) (trimmed : string),
      url_Parse pr = inl u ->
      url.Path u = (slashes k ++ trimmed)%string ->
      strings.HasPrefix trimmed "/" = false ->
      let parts := strings.Split trimmed "/" in
      path_parts u = parts /\
      ParsePR url_Parse pr =
        if (length parts <? 4)%nat then
          zeroed (Some (TooFewPathElements (length parts)))
        else if negb (String.eqb (nth 2 parts "") "pull") then
          zeroed (Some NotExpectedFormat)
        else
          {| host := url.Host u;
             owner := nth 0 parts "";
             reponame := nth 1 parts "";
             prnum := fst (strconv.Atoi (nth 3 parts ""));
             err := errors.Wrap (snd (strconv.Atoi (nth 3 parts "")))
                      "parsing number from GitHub pull-request URL" |}) /\
  (forall u : url.URL,
      strings.HasPrefix (url.Path u) "//" = false ->
      path_parts u = spec_parts u) /\
  (forall u : url.URL,
      nth 0 (path_parts u) "" = "" ->
      path_parts u = [""] /\ exists k : nat, url.Path u = slashes k) /\
  (forall (u : url.URL) (k : nat),
      url.Path u = slashes k -> path_parts u = [""]).
Proof.
  split; [|split; [|split; [|split]]].
  - intros u. destruct (TrimLeft_removes_slashes (url.Path u)) as [k [Hk Hp]].
    exists k. repeat split; assumption.
  - intros url_Parse pr u k trimmed Hu Hk Hp parts.
    assert (Hparts : path_parts u = parts).
    { unfold path_parts. cbv zeta. now rewrite Hk, (TrimLeft_slashes k _ Hp). }
    split; [exact Hparts|].
    rewrite (ParsePR_parsed url_Parse pr u Hu). cbv zeta.
    rewrite Hparts. reflexivity.
  - intros u Hp. unfold path_parts, spec_parts. cbv zeta.
    now rewrite (TrimLeft_one_slash _ Hp).
  - intros u H0. split.
    + exact (path_parts_first_empty u H0).
    + exact (path_parts_first_empty_slashes u H0).
  - exact path_parts_slashes.
Qed.

(** C7 on three URLs.  https://github.com/acme/widgets/pull/42, whose
    path starts with one slash: both readings give the same four parts.
    https://github.com///acme/widgets/pull/42, three slashes in front:
    the same four parts and the same results.  https://github.com//,
    slashes alone: one empty part, and the too-few error. *)
Lemma C7_ParsePR_trims_every_leading_slash_witness :
  path_parts {| url.Scheme := "https"; url.Opaque := ""; url.Host := "github.com";
                url.Path := "/acme/widgets/pull/42"; url.RawQuery := "";
                url.Fragment := "" |}
  = spec_parts {| url.Scheme := "https"; url.Opaque := ""; url.Host := "github.com";
                  url.Path := "/acme/widgets/pull/42"; url.RawQuery := "";
                  url.Fragment := "" |}
  /\ ParsePR url.Parse "https://github.com///acme/widgets/pull/42"
     = {| host := "github.com"; owner := "acme"; reponame := "widgets";
          prnum := 42; err := None |}
  /\ path_parts {| url.Scheme := "https"; url.Opaque := ""; url.Host := "github.com";
                   url.Path := "//"; url.RawQuery := ""; url.Fragment := "" |}
     = [""]
  /\ ParsePR url.Parse "https://github.com//"
     = zeroed (Some (TooFewPathElements 1)).
Proof.
  split; [|split; [|split]].
  - apply (proj1 (proj2 (proj2 C7_ParsePR_trims_every_leading_slash))).
    reflexivity.
  - exact (proj2 (proj1 (proj2 C7_ParsePR_trims_every_leading_slash)
                    url.Parse "https://github.com///acme/widgets/pull/42"
                    {| url.Scheme := "https"; url.Opaque := ""; url.Host := "github.com";
                       url.Path := "///acme/widgets/pull/42"; url.RawQuery := "";
                       url.Fragment := "" |}
                    3%nat "acme/widgets/pull/42" eq_refl eq_refl eq_refl)).
  - exact (proj2 (proj2 (proj2 (proj2 C7_ParsePR_trims_every_leading_slash)))
             {| url.Scheme := "https"; url.Opaque := ""; url.Host := "github.com";
                url.Path := "//"; url.RawQuery := ""; url.Fragment := "" |}
             2%nat eq_refl).
  - exact (proj2 (proj1 (proj2 C7_ParsePR_trims_every_leading_slash)
                    url.Parse "https://github.com//"
                    {| url.Scheme := "https"; url.Opaque := ""; url.Host := "github.com";
                       url.Path := "//"; url.RawQuery := ""; url.Fragment := "" |}
                    2%nat "" eq_refl eq_refl eq_refl)).
Defined.

(** C7 as the specification words it fails on a path that starts with
    two slashes.  For https://github.com//acme/widgets/pull/42 the
    parts [ParsePR] reads are acme, widgets, pull, 42, and it succeeds
    with number 42; with one slash removed there would be a fifth, empty
    part in front, and ["widgets"] where ["pull"] is wanted. *)
Lemma C7_counterexample_two_slashes :
  let u := {| url.Scheme := "https"; url.Opaque := ""; url.Host := "github.com";
              url.Path := "//acme/widgets/pull/42"; url.RawQuery := "";
              url.Fragment := "" |} in
  url.Parse "https://github.com//acme/widgets/pull/42" = inl u /\
  path_parts u = ["acme"; "widgets"; "pull"; "42"] /\
  spec_parts u = [""; "acme"; "widgets"; "pull"; "42"] /\
  path_parts u <> spec_parts u /\
  ParsePR url.Parse "https://github.com//acme/widgets/pull/42"
  = {| host := "github.com"; owner := "acme"; reponame := "widgets";
       prnum := 42; err := None |}.
Proof.
  cbv zeta. repeat split; try reflexivity. vm_compute. discriminate.
Qed.

(** C9: segments after the fourth are not looked at.  Whenever the
    parts of the path start with an owner, a repository, ["pull"] and a
    part [strconv.Atoi] reads as [n], [ParsePR] succeeds with these and
    [n], whatever parts follow.  So it does on every path
    /OWNER/REPO/pull/NUMBER, alone or followed by a slash and anything;
    https://github.com/acme/widgets/pull/42/files parses to number 42. *)
Theorem C9_ParsePR_ignores_trailing_segments :
  (forall (url_Parse : string -> url.URL + error) (pr : string) (u : url.URL)
          (o r num : string) (trailing : list string) (n : Z),
      url_Parse pr = inl u ->
      path_parts u = o :: r :: "pull" :: num :: trailing ->
      strconv.Atoi num = (n, None) ->
      ParsePR url_Parse pr
      = {| host := url.Host u; owner := o; reponame := r; prnum := n;
           err := None |})
  /\ (forall (url_Parse : string -> url.URL + error) (pr : string) (u : url.URL)
             (o r num rest : string) (n : Z),
         url_Parse pr = inl u ->
         url.Path u = ("/" ++ o ++ "/" ++ r ++ "/pull/" ++ num ++ rest)%string ->
         o <> "" ->
         strings.contains o "/" = false ->
         strings.contains r "/" = false ->
         strings.contains num "/" = false ->
         rest = "" \/ (exists more, rest = String "/" more) ->
         strconv.Atoi num = (n, None) ->
         ParsePR url_Parse pr
         = {| host := url.Host u; owner := o; reponame := r; prnum := n;
              err := None |})
  /\ ParsePR url.Parse "https://github.com/acme/widgets/pull/42/files"
     = {| host := "github.com"; owner := "acme"; reponame := "widgets";
          prnum := 42; err := None |}.
Proof.
  assert (Hparts : forall (url_Parse : string -> url.URL + error) (pr : string)
                          (u : url.URL) (o r num : string)
                          (trailing : list string) (n : Z),
             url_Parse pr = inl u ->
             path_parts u = o :: r :: "pull" :: num :: trailing ->
             strconv.Atoi num = (n, None) ->
             ParsePR url_Parse pr
             = {| host := url.Host u; owner := o; reponame := r; prnum := n;
                  err := None |}).
  { intros url_Parse pr u o r num trailing n Hu Hparts Hn.
    rewrite (ParsePR_number url_Parse pr u n None Hu);
      rewrite Hparts; cbn [nth length]; try reflexivity; try assumption; lia. }
  split; [exact Hparts | split; [|reflexivity]].
  intros url_Parse pr u o r num rest n Hu Hpath Ho Hno Hnr Hnn Hrest Hn.
  destruct (path_parts_pull u o r num rest Hpath Ho Hno Hnr Hnn Hrest)
    as [trailing Htrailing].
  exact (Hparts url_Parse pr u o r num trailing n Hu Htrailing Hn).
Qed.

(** C9 with two trailing segments, by the parts, and with a trailing
    slash, by the path. *)
Lemma C9_ParsePR_ignores_trailing_segments_witness :
  ParsePR url.Parse "https://github.com/acme/widgets/pull/42/files/more"
  = {| host := "github.com"; owner := "acme"; reponame := "widgets";
       prnum := 42; err := None |} /\
  ParsePR url.Parse "https://github.com/acme/widgets/pull/42/"
  = {| host := "github.com"; owner := "acme"; reponame := "widgets";
       prnum := 42; err := None |}.
Proof.
  split; [|
    exact (proj1 (proj2 C9_ParsePR_ignores_trailing_segments) url.Parse
             "https://github.com/acme/widgets/pull/42/"
             {| url.Scheme := "https"; url.Opaque := ""; url.Host := "github.com";
                url.Path := "/acme/widgets/pull/42/"; url.RawQuery := "";
                url.Fragment := "" |}
             "acme" "widgets" "42" "/" 42 eq_refl eq_refl
             (fun H => match H with end) eq_refl eq_refl eq_refl
             (or_intror (ex_intro _ EmptyString eq_refl)) eq_refl)].
  exact (proj1 C9_ParsePR_ignores_trailing_segments url.Parse
           "https://github.com/acme/widgets/pull/42/files/more"
           {| url.Scheme := "https"; url.Opaque := ""; url.Host := "github.com";
              url.Path := "/acme/widgets/pull/42/files/more"; url.RawQuery := "";
              url.Fragment := "" |}
           "acme" "widgets" "42" ["files"; "more"] 42 eq_refl eq_refl eq_refl).
Defined.

(** C10: what [ParsePR] returns beside the error.  On the too-few and
    the format failures all of host, owner, repository and number are
    zero values.  When the number fails to parse, host, owner and
    repository are already those of the URL, next to the non-nil error
    (and the number is what [strconv.Atoi] left).  So for
    https://github.com/acme/widgets/pull/abc. *)
Theorem C10_ParsePR_results_on_failure :
  (forall (url_Parse : string -> url.URL + error) (pr : string) (u : url.URL),
      url_Parse pr = inl u ->
      let parts := path_parts u in
      let res := ParsePR url_Parse pr in
      ((length parts < 4)%nat ->
       res = {| host := ""; owner := ""; reponame := ""; prnum := 0;
                err := Some (TooFewPathElements (length parts)) |}) /\
      ((4 <= length parts)%nat -> nth 2 parts "" <> "pull" ->
       res = {| host := ""; owner := ""; reponame := ""; prnum := 0;
                err := Some NotExpectedFormat |}) /\
      ((4 <= length parts)%nat -> nth 2 parts "" = "pull" ->
       forall (n : Z) (cause : error),
         strconv.Atoi (nth 3 parts "") = (n, Some cause) ->
         res = {| host := url.Host u; owner := nth 0 parts "";
                  reponame := nth 1 parts ""; prnum := n;
                  err := Some (Wrapped cause
                                 "parsing number from GitHub pull-request URL") |}))
  /\ ParsePR url.Parse "https://github.com/acme/widgets/pull/abc"
     = {| host := "github.com"; owner := "acme"; reponame := "widgets";
          prnum := 0;
          err := Some (Wrapped (NumError "Atoi" "abc" ErrSyntax)
                         "parsing number from GitHub pull-request URL") |}.
Proof.
  split; [|reflexivity].
  intros url_Parse pr u Hu parts res. subst parts res. repeat split.
  - intros Hlen. now rewrite (ParsePR_too_few _ _ _ Hu Hlen).
  - intros Hlen Hpull. now rewrite (ParsePR_not_pull _ _ _ Hu Hlen Hpull).
  - intros Hlen Hpull n cause Hn.
    now rewrite (ParsePR_number _ _ _ _ _ Hu Hlen Hpull Hn).
Qed.

(** C10 on three URLs: zero values twice, then host, owner and
    repository standing next to a range error. *)
Lemma C10_ParsePR_results_on_failure_witness :
  ParsePR url.Parse "https://github.com/acme/pull"
  = {| host := ""; owner := ""; reponame := ""; prnum := 0;
       err := Some (TooFewPathElements 2) |} /\
  ParsePR url.Parse "https://github.com/acme/widgets/issues/42"
  = {| host := ""; owner := ""; reponame := ""; prnum := 0;
       err := Some NotExpectedFormat |} /\
  ParsePR url.Parse "https://github.com/acme/widgets/pull/99999999999999999999"
  = {| host := "github.com"; owner := "acme"; reponame := "widgets";
       prnum := 9223372036854775807;
       err := Some (Wrapped (NumError "Atoi" "99999999999999999999" ErrRange)
                      "parsing number from GitHub pull-request URL") |}.
Proof.
  pose (at_path p := {| url.Scheme := "https"; url.Opaque := ""; url.Host := "github.com";
                        url.Path := p; url.RawQuery := ""; url.Fragment := "" |}).
  split; [|split].
  - refine (proj1 (proj1 C10_ParsePR_results_on_failure url.Parse
                     "https://github.com/acme/pull" (at_path "/acme/pull") eq_refl) _).
    vm_compute. lia.
  - refine (proj1 (proj2 (proj1 C10_ParsePR_results_on_failure url.Parse
                     "https://github.com/acme/widgets/issues/42"
                     (at_path "/acme/widgets/issues/42") eq_refl)) _ _).
    + vm_compute. lia.
    + vm_compute. discriminate.
  - refine (proj2 (proj2 (proj1 C10_ParsePR_results_on_failure url.Parse
                     "https://github.com/acme/widgets/pull/99999999999999999999"
                     (at_path "/acme/widgets/pull/99999999999999999999") eq_refl))
                  _ _ 9223372036854775807
                  (NumError "Atoi" "99999999999999999999" ErrRange) _).
    + vm_compute. lia.
    + reflexivity.
    + reflexivity.
Defined.

(** * Properties of [AddOrUpdate] *)

Section AddOrUpdate_facts.

Context {World PullRequest : Type}.
Variable c : Commenter World PullRequest.
Variables owner reponame : string.
Variable prnum : Z.

(** ** The scan *)

Section scan.

Variable isComment : Matcher World.
Variable issueComment : IssueComment.

(** A matcher that turns every comment down is asked about each, and
    the loop runs to its end. *)
Lemma range_comments_rejected (l : list (option IssueComment)) (w w' : World) :
  rejects isComment l w = Some w' ->
  range_comments c isComment owner reponame issueComment l w
  = (Done None, w', map CallIsComment l).
Proof.
  revert w. induction l as [|comment rest IH]; intros w; cbn.
  - intros [= ->]. reflexivity.
  - unfold bind, call. destruct (isComment comment w) as [[|] w1]; [discriminate|].
    intros Hrest. rewrite (IH _ Hrest). reflexivity.
Qed.

(** The first comment the matcher accepts is edited, and the loop body
    returns. *)
Lemma range_comments_matched (pre post : list (option IssueComment))
    (comment : option IssueComment) (id : Z) (w w1 w2 : World) :
  rejects isComment pre w = Some w1 ->
  isComment comment w1 = (true, w2) ->
  comment_ID comment = Some id ->
  range_comments c isComment owner reponame issueComment (pre ++ comment :: post) w
  = (Done (Some (errors.Wrap
                   (fst (EditComment (issues c) owner reponame id issueComment w2))
                   "updating PR comment")),
     snd (EditComment (issues c) owner reponame id issueComment w2),
     map CallIsComment pre
     ++ [CallIsComment comment; CallEditComment owner reponame id issueComment]).
Proof.
  revert w. induction pre as [|first rest IH]; intros w; cbn.
  - intros [= ->] Hacc Hid. unfold bind, call, deref, ret.
    rewrite Hacc, Hid.
    destruct (EditComment (issues c) owner reponame id issueComment w2).
    reflexivity.
  - unfold bind at 1. unfold call at 1.
    destruct (isComment first w) as [[|] w']; [discriminate|].
    intros Hrest Hacc Hid. rewrite (IH _ Hrest Hacc Hid). reflexivity.
Qed.

(** An accepted comment without an ID stops the run before any write. *)
Lemma range_comments_panics (pre post : list (option IssueComment))
    (comment : option IssueComment) (w w1 w2 : World) :
  rejects isComment pre w = Some w1 ->
  isComment comment w1 = (true, w2) ->
  comment_ID comment = None ->
  range_comments c isComment owner reponame issueComment (pre ++ comment :: post) w
  = (Panic, w2, map CallIsComment pre ++ [CallIsComment comment]).
Proof.
  revert w. induction pre as [|first rest IH]; intros w; cbn.
  - intros [= ->] Hacc Hid. unfold bind, call, deref.
    rewrite Hacc, Hid. reflexivity.
  - unfold bind at 1. unfold call at 1.
    destruct (isComment first w) as [[|] w']; [discriminate|].
    intros Hrest Hacc Hid. rewrite (IH _ Hrest Hacc Hid). reflexivity.
Qed.

(** Either every comment is turned down, or there is a first one that
    is accepted. *)
Lemma rejects_or_first (l : list (option IssueComment)) (w : World) :
  (exists w', rejects isComment l w = Some w') \/
  (exists pre comment post w1 w2,
      l = pre ++ comment :: post /\
      rejects isComment pre w = Some w1 /\
      isComment comment w1 = (true, w2)).
Proof.
  revert w. induction l as [|first rest IH]; intros w.
  - left. exists w. reflexivity.
  - destruct (isComment first w) as [[|] w'] eqn:Hfirst.
    + right. exists [], first, rest, w, w'. repeat split; assumption.
    + destruct (IH w') as [[w'' Hrej] | (pre & cm & post & w1 & w2 & -> & Hrej & Hacc)].
      * left. exists w''. cbn. rewrite Hfirst. exact Hrej.
      * right. exists (first :: pre), cm, post, w1, w2.
        repeat split; [|exact Hacc]. cbn. rewrite Hfirst. exact Hrej.
Qed.

End scan.

(** ** The ways through [AddOrUpdate] *)

Lemma AddOrUpdate_get_fails (w w1 : World) (pr : PullRequest) (e : error) :
  Get (prs c) owner reponame prnum w = ((pr, Some e), w1) ->
  AddOrUpdate c owner reponame prnum w
  = (Done (Some (Wrapped e "getting pull request")), w1,
     [CallGet owner reponame prnum]).
Proof.
  intros Hget. unfold AddOrUpdate, bind, call. rewrite Hget. reflexivity.
Qed.

Lemma AddOrUpdate_body_fails (w w1 w2 : World) (pr : PullRequest)
    (b : string) (e : error) :
  Get (prs c) owner reponame prnum w = ((pr, None), w1) ->
  body c pr w1 = ((b, Some e), w2) ->
  AddOrUpdate c owner reponame prnum w
  = (Done (Some (Wrapped e "getting comment body")), w2,
     [CallGet owner reponame prnum; CallBody pr]).
Proof.
  intros Hget Hbody. unfold AddOrUpdate, bind, call.
  rewrite Hget, Hbody. reflexivity.
Qed.

Lemma AddOrUpdate_list_fails (w w1 w2 w3 : World) (pr : PullRequest)
    (b : string) (comments : list (option IssueComment)) (e : error) :
  Get (prs c) owner reponame prnum w = ((pr, None), w1) ->
  body c pr w1 = ((b, None), w2) ->
  ListComments (issues c) owner reponame prnum w2 = ((comments, Some e), w3) ->
  AddOrUpdate c owner reponame prnum w
  = (Done (Some (Wrapped e "listing PR comments")), w3,
     opening owner reponame prnum pr).
Proof.
  intros Hget Hbody Hlist. unfold AddOrUpdate, bind, call.
  rewrite Hget, Hbody, Hlist. reflexivity.
Qed.

(** After the first three steps, the run is the scan and then, unless
    the scan returned, the creation. *)
Lemma AddOrUpdate_prepared (w w3 : World) (pr : PullRequest) (b : string)
    (comments : list (option IssueComment)) :
  prepared c owner reponame prnum w pr b comments w3 ->
  let issueComment := {| ID := None; Body := Some b |} in
  AddOrUpdate c owner reponame prnum w
  = match
      match IsComment c with
      | Some isComment =>
          range_comments c isComment owner reponame issueComment comments w3
      | None => (Done None, w3, [])
      end
    with
    | (Done (Some e), w4, l) => (Done e, w4, opening owner reponame prnum pr ++ l)
    | (Done None, w4, l) =>
        (Done (errors.Wrap
                 (fst (CreateComment (issues c) owner reponame prnum issueComment w4))
                 "adding PR comment"),
         snd (CreateComment (issues c) owner reponame prnum issueComment w4),
         opening owner reponame prnum pr
         ++ l ++ [CallCreateComment owner reponame prnum issueComment])
    | (Panic, w4, l) => (Panic, w4, opening owner reponame prnum pr ++ l)
    end.
Proof.
  intros (w1 & w2 & Hget & Hbody & Hlist) issueComment.
  unfold AddOrUpdate, bind, call. rewrite Hget, Hbody, Hlist.
  fold issueComment.
  destruct (IsComment c) as [isComment|].
  - destruct (range_comments c isComment owner reponame issueComment comments w3)
      as [[[[e|]|] w4] l]; unfold ret; cbn.
    + rewrite (app_nil_r l). reflexivity.
    + destruct (CreateComment (issues c) owner reponame prnum issueComment w4)
        as [e w5].
      reflexivity.
    + reflexivity.
  - unfold ret.
    destruct (CreateComment (issues c) owner reponame prnum issueComment w3).
    reflexivity.
Qed.

Lemma AddOrUpdate_creates_no_matcher (w w3 : World) (pr : PullRequest)
    (b : string) (comments : list (option IssueComment)) :
  prepared c owner reponame prnum w pr b comments w3 ->
  IsComment c = None ->
  let issueComment := {| ID := None; Body := Some b |} in
  AddOrUpdate c owner reponame prnum w
  = (Done (errors.Wrap
             (fst (CreateComment (issues c) owner reponame prnum issueComment w3))
             "adding PR comment"),
     snd (CreateComment (issues c) owner reponame prnum issueComment w3),
     opening owner reponame prnum pr
     ++ [CallCreateComment owner reponame prnum issueComment]).
Proof.
  intros Hprep Hnil issueComment.
  rewrite (AddOrUpdate_prepared _ _ _ _ _ Hprep). cbv zeta. rewrite Hnil.
  reflexivity.
Qed.

Lemma AddOrUpdate_creates_unmatched (w w3 w4 : World) (pr : PullRequest)
    (b : string) (comments : list (option IssueComment))
    (isComment : Matcher World) :
  prepared c owner reponame prnum w pr b comments w3 ->
  IsComment c = Some isComment ->
  rejects isComment comments w3 = Some w4 ->
  let issueComment := {| ID := None; Body := Some b |} in
  AddOrUpdate c owner reponame prnum w
  = (Done (errors.Wrap
             (fst (CreateComment (issues c) owner reponame prnum issueComment w4))
             "adding PR comment"),
     snd (CreateComment (issues c) owner reponame prnum issueComment w4),
     opening owner reponame prnum pr
     ++ map CallIsComment comments
     ++ [CallCreateComment owner reponame prnum issueComment]).
Proof.
  intros Hprep Hsome Hrej issueComment.
  rewrite (AddOrUpdate_prepared _ _ _ _ _ Hprep). cbv zeta. rewrite Hsome.
  rewrite (range_comments_rejected _ _ _ _ _ Hrej). reflexivity.
Qed.

Lemma AddOrUpdate_edits (w w3 w4 w5 : World) (pr : PullRequest) (b : string)
    (pre post : list (option IssueComment)) (comment : option IssueComment)
    (isComment : Matcher World) (id : Z) :
  prepared c owner reponame prnum w pr b (pre ++ comment :: post) w3 ->
  IsComment c = Some isComment ->
  rejects isComment pre w3 = Some w4 ->
  isComment comment w4 = (true, w5) ->
  comment_ID comment = Some id ->
  let issueComment := {| ID := None; Body := Some b |} in
  AddOrUpdate c owner reponame prnum w
  = (Done (errors.Wrap
             (fst (EditComment (issues c) owner reponame id issueComment w5))
             "updating PR comment"),
     snd (EditComment (issues c) owner reponame id issueComment w5),
     opening owner reponame prnum pr
     ++ map CallIsComment pre
     ++ [CallIsComment comment; CallEditComment owner reponame id issueComment]).
Proof.
  intros Hprep Hsome Hrej Hacc Hid issueComment.
  rewrite (AddOrUpdate_prepared _ _ _ _ _ Hprep). cbv zeta. rewrite Hsome.
  rewrite (range_comments_matched _ _ _ _ _ _ _ _ _ Hrej Hacc Hid).
  reflexivity.
Qed.

Lemma AddOrUpdate_panics (w w3 w4 w5 : World) (pr : PullRequest) (b : string)
    (pre post : list (option IssueComment)) (comment : option IssueComment)
    (isComment : Matcher World) :
  prepared c owner reponame prnum w pr b (pre ++ comment :: post) w3 ->
  IsComment c = Some isComment ->
  rejects isComment pre w3 = Some w4 ->
  isComment comment w4 = (true, w5) ->
  comment_ID comment = None ->
  AddOrUpdate c owner reponame prnum w
  = (Panic, w5,
     opening owner reponame prnum pr
     ++ map CallIsComment pre ++ [CallIsComment comment]).
Proof.
  intros Hprep Hsome Hrej Hacc Hid.
  rewrite (AddOrUpdate_prepared _ _ _ _ _ Hprep). cbv zeta. rewrite Hsome.
  rewrite (range_comments_panics _ _ _ _ _ _ _ _ Hrej Hacc Hid).
  reflexivity.
Qed.

(** Every run of [AddOrUpdate] is one of the seven of [Run]. *)
Lemma AddOrUpdate_runs (w : World) :
  Run c owner reponame prnum w (AddOrUpdate c owner reponame prnum w).
Proof.
  destruct (Get (prs c) owner reponame prnum w) as [[pr [e|]] w1] eqn:Hget.
  { rewrite (AddOrUpdate_get_fails _ _ _ _ Hget). now apply run_get_fails with pr. }
  destruct (body c pr w1) as [[b [e|]] w2] eqn:Hbody.
  { rewrite (AddOrUpdate_body_fails _ _ _ _ _ _ Hget Hbody).
    now apply run_body_fails with b w1. }
  destruct (ListComments (issues c) owner reponame prnum w2)
    as [[comments [e|]] w3] eqn:Hlist.
  { rewrite (AddOrUpdate_list_fails _ _ _ _ _ _ _ _ Hget Hbody Hlist).
    now apply run_list_fails with b comments w1 w2. }
  assert (Hprep : prepared c owner reponame prnum w pr b comments w3)
    by (exists w1, w2; repeat split; assumption).
  destruct (IsComment c) as [isComment|] eqn:Hmatcher.
  - destruct (rejects_or_first isComment comments w3)
      as [[w4 Hrej] | (pre & cm & post & w4 & w5 & -> & Hrej & Hacc)].
    + rewrite (AddOrUpdate_creates_unmatched _ _ _ _ _ _ _ Hprep Hmatcher Hrej).
      now apply run_create_unmatched with isComment w3.
    + destruct (comment_ID cm) as [id|] eqn:Hid.
      * rewrite (AddOrUpdate_edits _ _ _ _ _ _ _ _ _ _ _ Hprep Hmatcher Hrej Hacc Hid).
        now apply run_edit with post isComment w3 w4.
      * rewrite (AddOrUpdate_panics _ _ _ _ _ _ _ _ _ _ Hprep Hmatcher Hrej Hacc Hid).
        now apply run_panic with b post isComment w3 w4.
  - rewrite (AddOrUpdate_creates_no_matcher _ _ _ _ _ Hprep Hmatcher).
    now apply run_create_no_matcher with comments.
Qed.

(** ** Counting and ordering the calls of a run *)

Lemma filter_IsComment (p : Call PullRequest -> bool)
    (l : list (option IssueComment)) :
  (forall comment, p (CallIsComment comment) = false) ->
  filter p (map CallIsComment l) = [].
Proof.
  intros Hp. induction l as [|comment rest IH]; cbn; [reflexivity|].
  now rewrite Hp.
Qed.

(** The calls of a scan, with what follows it, counted by [p]. *)
Lemma count_scan (p : Call PullRequest -> bool) (pr : PullRequest)
    (l : list (option IssueComment)) (tail : list (Call PullRequest)) :
  (forall comment, p (CallIsComment comment) = false) ->
  p (CallGet owner reponame prnum) = false ->
  p (CallBody pr) = false ->
  p (CallListComments owner reponame prnum) = false ->
  length (filter p (opening owner reponame prnum pr ++ map CallIsComment l ++ tail))
  = length (filter p tail).
Proof.
  intros Hp Hget Hbody Hlist. unfold opening.
  rewrite !filter_app, !length_app, (filter_IsComment p l Hp).
  cbn. rewrite Hget, Hbody, Hlist. reflexivity.
Qed.

Lemma in_order_cons (a b : nat) (steps : list nat) :
  in_order (a :: b :: steps)
  = ((a <? b) || ((a =? 3) && (b =? 3)))%nat && in_order (b :: steps).
Proof. reflexivity. Qed.

Lemma in_order_scan (a : nat) (l : list (option IssueComment))
    (tail : list (Call PullRequest)) :
  a = 2%nat \/ a = 3%nat ->
  in_order (3%nat :: map step_of tail) = true ->
  in_order (a :: map step_of (map CallIsComment l ++ tail)) = true.
Proof.
  revert a. induction l as [|comment rest IH]; intros a Ha Htail.
  - destruct tail as [|ev tail']; [reflexivity|].
    cbn [app map] in *. destruct Ha as [-> | ->]; [|exact Htail].
    rewrite in_order_cons in *. apply andb_true_iff in Htail as [Hstep Hrest].
    rewrite Hrest, andb_true_r.
    destruct ev; cbn in Hstep |- *; congruence.
  - cbn [app map step_of]. rewrite in_order_cons.
    rewrite (IH 3%nat (or_intror eq_refl) Htail), andb_true_r.
    destruct Ha as [-> | ->]; reflexivity.
Qed.

(** The calls of a run after its first three steps are in order. *)
Lemma in_order_opening (pr : PullRequest) (l : list (option IssueComment))
    (tail : list (Call PullRequest)) :
  in_order (3%nat :: map step_of tail) = true ->
  in_order (map step_of (opening owner reponame prnum pr
                         ++ map CallIsComment l ++ tail)) = true.
Proof.
  intros Htail. unfold opening. cbn [app map step_of].
  change (in_order (0 :: 1 :: 2 :: map step_of (map CallIsComment l ++ tail))%nat)
    with (in_order (2%nat :: map step_of (map CallIsComment l ++ tail))).
  apply in_order_scan; [left; reflexivity | exact Htail].
Qed.

Section runs.

Variable w : World.
Variable r : Outcome (option error) * World * list (Call PullRequest).
Hypothesis Hrun : Run c owner reponame prnum w r.

(** At most one write, whatever the run. *)
Lemma Run_writes : (writes (calls r) <= 1)%nat.
Proof.
  destruct Hrun; unfold calls, writes; cbn [snd];
    try (cbn; lia);
    try (rewrite count_scan by (intros; reflexivity); cbn; lia).
Qed.

(** A write is an edit or a creation. *)
Lemma Run_edits_creates : writes (calls r) = (edits (calls r) + creates (calls r))%nat.
Proof.
  unfold writes, edits, creates.
  induction (calls r) as [|ev rest IH]; [reflexivity|].
  destruct ev; cbn; lia.
Qed.

(** A run that returns after the first three steps has written once. *)
Lemma Run_returns_writes (pr : PullRequest) (b : string)
    (comments : list (option IssueComment)) (w3 : World)
    (res : option error) :
  prepared c owner reponame prnum w pr b comments w3 ->
  outcome r = Done res ->
  writes (calls r) = 1%nat.
Proof.
  intros (w1 & w2 & Hget & Hbody & Hlist).
  destruct Hrun as [pr' e w1' Hget' | pr' b' e w1' w2' Hget' Hbody'
                   | pr' b' cs' e w1' w2' w3' Hget' Hbody' Hlist'
                   | | | | ];
    unfold calls, writes, outcome; cbn [snd fst]; intros Hres.
  - congruence.
  - rewrite Hget in Hget'. injection Hget' as <- <-. congruence.
  - rewrite Hget in Hget'. injection Hget' as <- <-.
    rewrite Hbody in Hbody'. injection Hbody' as <- <-. congruence.
  - reflexivity.
  - rewrite count_scan by (intros; reflexivity). reflexivity.
  - rewrite count_scan by (intros; reflexivity). reflexivity.
  - discriminate.
Qed.

(** The steps of a run come in order, the fetch first. *)
Lemma Run_in_order :
  in_order (map step_of (calls r)) = true /\
  exists rest, calls r = CallGet owner reponame prnum :: rest.
Proof.
  destruct Hrun; unfold calls; cbn [snd]; (split; [|eexists; reflexivity]);
    try reflexivity;
    try (apply in_order_opening; reflexivity).
Qed.

(** A run that got through the first three steps panics only on an
    accepted comment of the listing that has no ID. *)
Lemma Run_prepared_panic (pr : PullRequest) (b : string)
    (comments : list (option IssueComment)) (w3 : World) :
  prepared c owner reponame prnum w pr b comments w3 ->
  outcome r = Panic ->
  exists (isComment : Matcher World)
         (pre post : list (option IssueComment)) (comment : option IssueComment)
         (w4 w5 : World),
    comments = pre ++ comment :: post /\
    IsComment c = Some isComment /\
    rejects isComment pre w3 = Some w4 /\
    isComment comment w4 = (true, w5) /\
    comment_ID comment = None.
Proof.
  intros (w1 & w2 & Hget & Hbody & Hlist).
  destruct Hrun as [ | | | | |
                   | pr' b' pre post comment isComment w3' w4 w5
                       (w1' & w2' & Hget' & Hbody' & Hlist') Hmatcher Hrej Hacc Hid];
    unfold outcome; cbn [fst]; try discriminate.
  intros _.
  rewrite Hget in Hget'. injection Hget' as <- <-.
  rewrite Hbody in Hbody'. injection Hbody' as <- <-.
  rewrite Hlist in Hlist'. injection Hlist' as Hcs Hw3. subst w3'.
  exists isComment, pre, post, comment, w4, w5.
  repeat split; assumption.
Qed.

End runs.

End AddOrUpdate_facts.

(** ** The claims about [AddOrUpdate] *)

(** C1, as the code has it: when the three first steps succeed and the
    configured matcher, asked about the comments in the order of the
    listing, turns down those of [pre] and accepts [comment], which
    carries an ID, then [AddOrUpdate] edits that comment and nothing
    else: the new body is the generated one, the result is the edit's
    (wrapped when it is an error), the matcher is never asked about the
    comments of [post], and there is no creation. *)
Theorem C1_first_match_edited :
  forall (World PullRequest : Type) (c : Commenter World PullRequest)
         (owner reponame : string) (prnum : Z) (w w1 w2 w3 w4 w5 : World)
         (pr : PullRequest) (b : string)
         (pre post : list (option IssueComment)) (comment : option IssueComment)
         (isComment : Matcher World) (id : Z),
    Get (prs c) owner reponame prnum w = ((pr, None), w1) ->
    body c pr w1 = ((b, None), w2) ->
    ListComments (issues c) owner reponame prnum w2
    = ((pre ++ comment :: post, None), w3) ->
    IsComment c = Some isComment ->
    rejects isComment pre w3 = Some w4 ->
    isComment comment w4 = (true, w5) ->
    comment_ID comment = Some id ->
    let issueComment := {| ID := None; Body := Some b |} in
    let written := EditComment (issues c) owner reponame id issueComment w5 in
    let run := AddOrUpdate c owner reponame prnum w in
    run = (Done (errors.Wrap (fst written) "updating PR comment"), snd written,
           [CallGet owner reponame prnum; CallBody pr;
            CallListComments owner reponame prnum]
           ++ map CallIsComment pre
           ++ [CallIsComment comment;
               CallEditComment owner reponame id issueComment]) /\
    edits (calls run) = 1%nat /\
    creates (calls run) = 0%nat.
Proof.
  intros World PullRequest c owner reponame prnum w w1 w2 w3 w4 w5 pr b
         pre post comment isComment id Hget Hbody Hlist Hmatcher Hrej Hacc Hid
         issueComment written run.
  assert (Hprep : prepared c owner reponame prnum w pr b (pre ++ comment :: post) w3)
    by (exists w1, w2; repeat split; assumption).
  assert (Hrun : run = (Done (errors.Wrap (fst written) "updating PR comment"),
                        snd written,
                        opening owner reponame prnum pr
                        ++ map CallIsComment pre
                        ++ [CallIsComment comment;
                            CallEditComment owner reponame id issueComment]))
    by exact (AddOrUpdate_edits c owner reponame prnum _ _ _ _ _ _ _ _ _ _ _
                Hprep Hmatcher Hrej Hacc Hid).
  split; [exact Hrun|]. rewrite Hrun. unfold calls, edits, creates. cbn [snd].
  split; rewrite count_scan by (intros; reflexivity); reflexivity.
Qed.

(** C1 on the test double: of the two earlier reports the first one,
    comment 2, is edited; the last comment is never looked at. *)
Lemma C1_first_match_edited_witness :
  AddOrUpdate (fake.commenter (Some (fake.marked "report:")) "report: ok")
    "acme" "widgets" 42 fake.thread
  = (Done None,
     [fake.old 1 "LGTM"; fake.old 2 "report: ok"; fake.old 3 "report: 1 failure"],
     [CallGet "acme" "widgets" 42; CallBody 42;
      CallListComments "acme" "widgets" 42;
      CallIsComment (fake.old 1 "LGTM");
      CallIsComment (fake.old 2 "report: 3 failures");
      CallEditComment "acme" "widgets" 2
        {| ID := None; Body := Some "report: ok" |}]).
Proof.
  exact (proj1 (C1_first_match_edited fake.World fake.PullRequest
                  (fake.commenter (Some (fake.marked "report:")) "report: ok")
                  "acme" "widgets" 42
                  fake.thread fake.thread fake.thread fake.thread fake.thread
                  fake.thread 42 "report: ok"
                  [fake.old 1 "LGTM"] [fake.old 3 "report: 1 failure"]
                  (fake.old 2 "report: 3 failures") (fake.marked "report:") 2
                  eq_refl eq_refl eq_refl eq_refl eq_refl eq_refl eq_refl)).
Defined.

(** C1 as the specification words it fails when the first accepted
    comment has no ID.  The matcher accepts the second comment of the
    listing, and the run ends in a panic on [*comment.ID]: no edit is
    issued and nothing is returned. *)
Lemma C1_counterexample_match_without_ID :
  let c := fake.commenter (Some (fake.marked "report:")) "report: ok" in
  let run := AddOrUpdate c "acme" "widgets" 42 fake.thread_no_ID in
  fake.listComments "acme" "widgets" 42 fake.thread_no_ID
  = ((fake.thread_no_ID, None), fake.thread_no_ID) /\
  fst (fake.marked "report:" (nth 1 fake.thread_no_ID None) fake.thread_no_ID)
  = true /\
  outcome run = Panic /\
  edits (calls run) = 0%nat /\
  (forall res : option error, outcome run <> Done res).
Proof.
  cbv zeta. repeat split; try reflexivity. intros res. vm_compute. discriminate.
Qed.

(** C2: when the three first steps succeed and no matcher is configured,
    [AddOrUpdate] asks no matcher anything and creates one comment with
    the generated body; when the configured matcher turns every listed
    comment down, it is asked about each, in order, and then one comment
    with the generated body is created.  Either way there is no edit, and
    the result is the creation's (wrapped when it is an error). *)
Theorem C2_unmatched_creates :
  (forall (World PullRequest : Type) (c : Commenter World PullRequest)
          (owner reponame : string) (prnum : Z) (w w1 w2 w3 : World)
          (pr : PullRequest) (b : string) (comments : list (option IssueComment)),
      Get (prs c) owner reponame prnum w = ((pr, None), w1) ->
      body c pr w1 = ((b, None), w2) ->
      ListComments (issues c) owner reponame prnum w2 = ((comments, None), w3) ->
      IsComment c = None ->
      let issueComment := {| ID := None; Body := Some b |} in
      let written := CreateComment (issues c) owner reponame prnum issueComment w3 in
      let run := AddOrUpdate c owner reponame prnum w in
      run = (Done (errors.Wrap (fst written) "adding PR comment"), snd written,
             [CallGet owner reponame prnum; CallBody pr;
              CallListComments owner reponame prnum;
              CallCreateComment owner reponame prnum issueComment]) /\
      creates (calls run) = 1%nat /\
      edits (calls run) = 0%nat) /\
  (forall (World PullRequest : Type) (c : Commenter World PullRequest)
          (owner reponame : string) (prnum : Z) (w w1 w2 w3 w4 : World)
          (pr : PullRequest) (b : string) (comments : list (option IssueComment))
          (isComment : Matcher World),
      Get (prs c) owner reponame prnum w = ((pr, None), w1) ->
      body c pr w1 = ((b, None), w2) ->
      ListComments (issues c) owner reponame prnum w2 = ((comments, None), w3) ->
      IsComment c = Some isComment ->
      rejects isComment comments w3 = Some w4 ->
      let issueComment := {| ID := None; Body := Some b |} in
      let written := CreateComment (issues c) owner reponame prnum issueComment w4 in
      let run := AddOrUpdate c owner reponame prnum w in
      run = (Done (errors.Wrap (fst written) "adding PR comment"), snd written,
             [CallGet owner reponame prnum; CallBody pr;
              CallListComments owner reponame prnum]
             ++ map CallIsComment comments
             ++ [CallCreateComment owner reponame prnum issueComment]) /\
      creates (calls run) = 1%nat /\
      edits (calls run) = 0%nat).
Proof.
  split.
  - intros World PullRequest c owner reponame prnum w w1 w2 w3 pr b comments
           Hget Hbody Hlist Hnil issueComment written run.
    assert (Hprep : prepared c owner reponame prnum w pr b comments w3)
      by (exists w1, w2; repeat split; assumption).
    assert (Hrun : run = (Done (errors.Wrap (fst written) "adding PR comment"),
                          snd written,
                          opening owner reponame prnum pr
                          ++ [CallCreateComment owner reponame prnum issueComment]))
      by exact (AddOrUpdate_creates_no_matcher c owner reponame prnum _ _ _ _ _
                  Hprep Hnil).
    split; [exact Hrun|]. rewrite Hrun. split; reflexivity.
  - intros World PullRequest c owner reponame prnum w w1 w2 w3 w4 pr b comments
           isComment Hget Hbody Hlist Hmatcher Hrej issueComment written run.
    assert (Hprep : prepared c owner reponame prnum w pr b comments w3)
      by (exists w1, w2; repeat split; assumption).
    assert (Hrun : run = (Done (errors.Wrap (fst written) "adding PR comment"),
                          snd written,
                          opening owner reponame prnum pr
                          ++ map CallIsComment comments
                          ++ [CallCreateComment owner reponame prnum issueComment]))
      by exact (AddOrUpdate_creates_unmatched c owner reponame prnum _ _ _ _ _ _ _
                  Hprep Hmatcher Hrej).
    split; [exact Hrun|]. rewrite Hrun. unfold calls, edits, creates. cbn [snd].
    split; rewrite count_scan by (intros; reflexivity); reflexivity.
Qed.

(** C2 on the test double: without a matcher, and with one that finds
    no comment of its own, a fourth comment is created. *)
Lemma C2_unmatched_creates_witness :
  AddOrUpdate (fake.commenter None "report: ok") "acme" "widgets" 42 fake.thread
  = (Done None, fake.thread ++ [fake.old 4 "report: ok"],
     [CallGet "acme" "widgets" 42; CallBody 42;
      CallListComments "acme" "widgets" 42;
      CallCreateComment "acme" "widgets" 42
        {| ID := None; Body := Some "report: ok" |}]) /\
  AddOrUpdate (fake.commenter (Some (fake.marked "coverage:")) "coverage: 81%")
    "acme" "widgets" 42 fake.thread
  = (Done None, fake.thread ++ [fake.old 4 "coverage: 81%"],
     [CallGet "acme" "widgets" 42; CallBody 42;
      CallListComments "acme" "widgets" 42;
      CallIsComment (fake.old 1 "LGTM");
      CallIsComment (fake.old 2 "report: 3 failures");
      CallIsComment (fake.old 3 "report: 1 failure");
      CallCreateComment "acme" "widgets" 42
        {| ID := None; Body := Some "coverage: 81%" |}]).
Proof.
  split.
  - exact (proj1 (proj1 C2_unmatched_creates fake.World fake.PullRequest
                    (fake.commenter None "report: ok") "acme" "widgets" 42
                    fake.thread fake.thread fake.thread fake.thread
                    42 "report: ok" fake.thread
                    eq_refl eq_refl eq_refl eq_refl)).
  - exact (proj1 (proj2 C2_unmatched_creates fake.World fake.PullRequest
                    (fake.commenter (Some (fake.marked "coverage:")) "coverage: 81%")
                    "acme" "widgets" 42
                    fake.thread fake.thread fake.thread fake.thread fake.thread
                    42 "coverage: 81%" fake.thread (fake.marked "coverage:")
                    eq_refl eq_refl eq_refl eq_refl eq_refl)).
Defined.

(** C3, as the code has it: no run of [AddOrUpdate] writes more than
    once, and a write is an edit or a creation.  A run whose first three
    steps succeed and which returns has written exactly once; a run in
    which the fetch, the body callback or the listing fails has written
    nothing. *)
Theorem C3_at_most_one_write :
  (forall (World PullRequest : Type) (c : Commenter World PullRequest)
          (owner reponame : string) (prnum : Z) (w : World),
      let run := AddOrUpdate c owner reponame prnum w in
      (writes (calls run) <= 1)%nat /\
      writes (calls run) = (edits (calls run) + creates (calls run))%nat) /\
  (forall (World PullRequest : Type) (c : Commenter World PullRequest)
          (owner reponame : string) (prnum : Z) (w w1 w2 w3 : World)
          (pr : PullRequest) (b : string) (comments : list (option IssueComment))
          (res : option error),
      Get (prs c) owner reponame prnum w = ((pr, None), w1) ->
      body c pr w1 = ((b, None), w2) ->
      ListComments (issues c) owner reponame prnum w2 = ((comments, None), w3) ->
      outcome (AddOrUpdate c owner reponame prnum w) = Done res ->
      writes (calls (AddOrUpdate c owner reponame prnum w)) = 1%nat) /\
  (forall (World PullRequest : Type) (c : Commenter World PullRequest)
          (owner reponame : string) (prnum : Z) (w w1 : World)
          (pr : PullRequest) (e : error),
      Get (prs c) owner reponame prnum w = ((pr, Some e), w1) ->
      writes (calls (AddOrUpdate c owner reponame prnum w)) = 0%nat) /\
  (forall (World PullRequest : Type) (c : Commenter World PullRequest)
          (owner reponame : string) (prnum : Z) (w w1 w2 : World)
          (pr : PullRequest) (b : string) (e : error),
      Get (prs c) owner reponame prnum w = ((pr, None), w1) ->
      body c pr w1 = ((b, Some e), w2) ->
      writes (calls (AddOrUpdate c owner reponame prnum w)) = 0%nat) /\
  (forall (World PullRequest : Type) (c : Commenter World PullRequest)
          (owner reponame : string) (prnum : Z) (w w1 w2 w3 : World)
          (pr : PullRequest) (b : string) (comments : list (option IssueComment))
          (e : error),
      Get (prs c) owner reponame prnum w = ((pr, None), w1) ->
      body c pr w1 = ((b, None), w2) ->
      ListComments (issues c) owner reponame prnum w2 = ((comments, Some e), w3) ->
      writes (calls (AddOrUpdate c owner reponame prnum w)) = 0%nat).
Proof.
  split; [|split; [|split; [|split]]].
  - intros World PullRequest c owner reponame prnum w run. split.
    + exact (Run_writes c owner reponame prnum w run
               (AddOrUpdate_runs c owner reponame prnum w)).
    + exact (Run_edits_creates run).
  - intros World PullRequest c owner reponame prnum w w1 w2 w3 pr b comments res
           Hget Hbody Hlist Hres.
    apply (Run_returns_writes c owner reponame prnum w _
             (AddOrUpdate_runs c owner reponame prnum w) pr b comments w3 res);
      [|exact Hres].
    exists w1, w2. repeat split; assumption.
  - intros World PullRequest c owner reponame prnum w w1 pr e Hget.
    now rewrite (AddOrUpdate_get_fails c owner reponame prnum _ _ _ _ Hget).
  - intros World PullRequest c owner reponame prnum w w1 w2 pr b e Hget Hbody.
    now rewrite (AddOrUpdate_body_fails c owner reponame prnum _ _ _ _ _ _ Hget Hbody).
  - intros World PullRequest c owner reponame prnum w w1 w2 w3 pr b comments e
           Hget Hbody Hlist.
    now rewrite (AddOrUpdate_list_fails c owner reponame prnum _ _ _ _ _ _ _ _
                   Hget Hbody Hlist).
Qed.

(** C3 on the test double: one write when a comment is edited, none
    when the pull request is not found, when the body callback fails or
    when the listing is refused. *)
Lemma C3_at_most_one_write_witness :
  writes (calls (AddOrUpdate
                   (fake.commenter (Some (fake.marked "report:")) "report: ok")
                   "acme" "widgets" 42 fake.thread)) = 1%nat /\
  writes (calls (AddOrUpdate (fake.commenter None "report: ok")
                   "acme" "widgets" 41 fake.thread)) = 0%nat /\
  writes (calls (AddOrUpdate (fake.mute None)
                   "acme" "widgets" 42 fake.thread)) = 0%nat /\
  writes (calls (AddOrUpdate (fake.commenter None "report: ok")
                   "acme" "locked" 42 fake.thread)) = 0%nat.
Proof.
  split; [|split; [|split]].
  - exact (proj1 (proj2 C3_at_most_one_write) fake.World fake.PullRequest
             (fake.commenter (Some (fake.marked "report:")) "report: ok")
             "acme" "widgets" 42 fake.thread fake.thread fake.thread fake.thread
             42 "report: ok" fake.thread None eq_refl eq_refl eq_refl eq_refl).
  - exact (proj1 (proj2 (proj2 C3_at_most_one_write)) fake.World fake.PullRequest
             (fake.commenter None "report: ok")
             "acme" "widgets" 41 fake.thread fake.thread 0 fake.notFound eq_refl).
  - exact (proj1 (proj2 (proj2 (proj2 C3_at_most_one_write)))
             fake.World fake.PullRequest (fake.mute None)
             "acme" "widgets" 42 fake.thread fake.thread fake.thread 42 ""
             (External "no report") eq_refl eq_refl).
  - exact (proj2 (proj2 (proj2 (proj2 C3_at_most_one_write)))
             fake.World fake.PullRequest (fake.commenter None "report: ok")
             "acme" "locked" 42 fake.thread fake.thread fake.thread fake.thread
             42 "report: ok" [] fake.forbidden eq_refl eq_refl eq_refl).
Defined.

(** C3 as the specification words it fails when the run panics.  The
    only comment of the thread has no ID and the matcher accepts it: the
    fetch, the body callback and the listing all succeed, and yet nothing
    is written. *)
Lemma C3_counterexample_no_write :
  let stale := [Some {| ID := None; Body := Some "report: stale" |}] in
  let c := fake.commenter (Some (fun _ w => (true, w))) "report: ok" in
  Get (prs c) "acme" "widgets" 42 stale = ((42, None), stale) /\
  body c 42 stale = (("report: ok", None), stale) /\
  ListComments (issues c) "acme" "widgets" 42 stale = ((stale, None), stale) /\
  writes (calls (AddOrUpdate c "acme" "widgets" 42 stale)) = 0%nat /\
  writes (calls (AddOrUpdate c "acme" "widgets" 42 stale)) <> 1%nat.
Proof.
  cbv zeta. repeat split; try reflexivity. vm_compute. discriminate.
Qed.

(** C4: the steps of [AddOrUpdate] come in order, the fetch first, then
    the body callback, the listing, the matcher and the write; and the
    step that fails ends the run, with its error under its label:
    after a failed fetch the only call made is the fetch, after a failed
    body callback the fetch and the callback, after a failed listing
    these and the listing, and a failed edit or creation is returned
    under "updating PR comment" or "adding PR comment". *)
Theorem C4_steps_in_order_errors_labelled :
  (forall (World PullRequest : Type) (c : Commenter World PullRequest)
          (owner reponame : string) (prnum : Z) (w : World),
      let run := AddOrUpdate c owner reponame prnum w in
      in_order (map step_of (calls run)) = true /\
      exists rest, calls run = CallGet owner reponame prnum :: rest) /\
  (forall (World PullRequest : Type) (c : Commenter World PullRequest)
          (owner reponame : string) (prnum : Z) (w w1 : World)
          (pr : PullRequest) (e : error),
      Get (prs c) owner reponame prnum w = ((pr, Some e), w1) ->
      AddOrUpdate c owner reponame prnum w
      = (Done (Some (Wrapped e "getting pull request")), w1,
         [CallGet owner reponame prnum])) /\
  (forall (World PullRequest : Type) (c : Commenter World PullRequest)
          (owner reponame : string) (prnum : Z) (w w1 w2 : World)
          (pr : PullRequest) (b : string) (e : error),
      Get (prs c) owner reponame prnum w = ((pr, None), w1) ->
      body c pr w1 = ((b, Some e), w2) ->
      AddOrUpdate c owner reponame prnum w
      = (Done (Some (Wrapped e "getting comment body")), w2,
         [CallGet owner reponame prnum; CallBody pr])) /\
  (forall (World PullRequest : Type) (c : Commenter World PullRequest)
          (owner reponame : string) (prnum : Z) (w w1 w2 w3 : World)
          (pr : PullRequest) (b : string) (comments : list (option IssueComment))
          (e : error),
      Get (prs c) owner reponame prnum w = ((pr, None), w1) ->
      body c pr w1 = ((b, None), w2) ->
      ListComments (issues c) owner reponame prnum w2 = ((comments, Some e), w3) ->
      AddOrUpdate c owner reponame prnum w
      = (Done (Some (Wrapped e "listing PR comments")), w3,
         [CallGet owner reponame prnum; CallBody pr;
          CallListComments owner reponame prnum])) /\
  (forall (World PullRequest : Type) (c : Commenter World PullRequest)
          (owner reponame : string) (prnum : Z) (w w1 w2 w3 w4 w5 w6 : World)
          (pr : PullRequest) (b : string)
          (pre post : list (option IssueComment)) (comment : option IssueComment)
          (isComment : Matcher World) (id : Z) (e : error),
      Get (prs c) owner reponame prnum w = ((pr, None), w1) ->
      body c pr w1 = ((b, None), w2) ->
      ListComments (issues c) owner reponame prnum w2
      = ((pre ++ comment :: post, None), w3) ->
      IsComment c = Some isComment ->
      rejects isComment pre w3 = Some w4 ->
      isComment comment w4 = (true, w5) ->
      comment_ID comment = Some id ->
      EditComment (issues c) owner reponame id {| ID := None; Body := Some b |} w5
      = (Some e, w6) ->
      AddOrUpdate c owner reponame prnum w
      = (Done (Some (Wrapped e "updating PR comment")), w6,
         [CallGet owner reponame prnum; CallBody pr;
          CallListComments owner reponame prnum]
         ++ map CallIsComment pre
         ++ [CallIsComment comment;
             CallEditComment owner reponame id {| ID := None; Body := Some b |}])) /\
  (forall (World PullRequest : Type) (c : Commenter World PullRequest)
          (owner reponame : string) (prnum : Z) (w w1 w2 w3 w4 w5 : World)
          (pr : PullRequest) (b : string) (comments asked : list (option IssueComment))
          (e : error),
      Get (prs c) owner reponame prnum w = ((pr, None), w1) ->
      body c pr w1 = ((b, None), w2) ->
      ListComments (issues c) owner reponame prnum w2 = ((comments, None), w3) ->
      (IsComment c = None /\ asked = [] /\ w4 = w3 \/
       exists isComment, IsComment c = Some isComment /\ asked = comments /\
                         rejects isComment comments w3 = Some w4) ->
      CreateComment (issues c) owner reponame prnum {| ID := None; Body := Some b |} w4
      = (Some e, w5) ->
      AddOrUpdate c owner reponame prnum w
      = (Done (Some (Wrapped e "adding PR comment")), w5,
         [CallGet owner reponame prnum; CallBody pr;
          CallListComments owner reponame prnum]
         ++ map CallIsComment asked
         ++ [CallCreateComment owner reponame prnum
               {| ID := None; Body := Some b |}])).
Proof.
  split; [|split; [|split; [|split; [|split]]]].
  - intros World PullRequest c owner reponame prnum w run.
    exact (Run_in_order c owner reponame prnum w run
             (AddOrUpdate_runs c owner reponame prnum w)).
  - intros World PullRequest c owner reponame prnum w w1 pr e.
    apply AddOrUpdate_get_fails.
  - intros World PullRequest c owner reponame prnum w w1 w2 pr b e.
    apply AddOrUpdate_body_fails.
  - intros World PullRequest c owner reponame prnum w w1 w2 w3 pr b comments e.
    apply AddOrUpdate_list_fails.
  - intros World PullRequest c owner reponame prnum w w1 w2 w3 w4 w5 w6 pr b
           pre post comment isComment id e
           Hget Hbody Hlist Hmatcher Hrej Hacc Hid Hedit.
    assert (Hprep : prepared c owner reponame prnum w pr b (pre ++ comment :: post) w3)
      by (exists w1, w2; repeat split; assumption).
    rewrite (AddOrUpdate_edits c owner reponame prnum _ _ _ _ _ _ _ _ _ _ _
               Hprep Hmatcher Hrej Hacc Hid).
    cbv zeta. rewrite Hedit. reflexivity.
  - intros World PullRequest c owner reponame prnum w w1 w2 w3 w4 w5 pr b
           comments asked e Hget Hbody Hlist Hscan Hcreate.
    assert (Hprep : prepared c owner reponame prnum w pr b comments w3)
      by (exists w1, w2; repeat split; assumption).
    destruct Hscan as [(Hnil & -> & ->) | (isComment & Hmatcher & -> & Hrej)].
    + rewrite (AddOrUpdate_creates_no_matcher c owner reponame prnum _ _ _ _ _
                 Hprep Hnil).
      cbv zeta. rewrite Hcreate. reflexivity.
    + rewrite (AddOrUpdate_creates_unmatched c owner reponame prnum _ _ _ _ _ _ _
                 Hprep Hmatcher Hrej).
      cbv zeta. rewrite Hcreate. reflexivity.
Qed.

(** C4 on the test double: a pull request that is not found, an edit
    that is refused and a creation that is refused, each under its label. *)
Lemma C4_steps_in_order_errors_labelled_witness :
  AddOrUpdate (fake.commenter None "report: ok") "acme" "widgets" 41 fake.thread
  = (Done (Some (Wrapped fake.notFound "getting pull request")), fake.thread,
     [CallGet "acme" "widgets" 41]) /\
  AddOrUpdate (fake.commenter (Some (fake.marked "report:")) "")
    "acme" "widgets" 42 fake.thread
  = (Done (Some (Wrapped fake.unprocessable "updating PR comment")), fake.thread,
     [CallGet "acme" "widgets" 42; CallBody 42;
      CallListComments "acme" "widgets" 42;
      CallIsComment (fake.old 1 "LGTM");
      CallIsComment (fake.old 2 "report: 3 failures");
      CallEditComment "acme" "widgets" 2 {| ID := None; Body := Some "" |}]) /\
  AddOrUpdate (fake.commenter None "") "acme" "widgets" 42 fake.thread
  = (Done (Some (Wrapped fake.unprocessable "adding PR comment")), fake.thread,
     [CallGet "acme" "widgets" 42; CallBody 42;
      CallListComments "acme" "widgets" 42;
      CallCreateComment "acme" "widgets" 42 {| ID := None; Body := Some "" |}]).
Proof.
  split; [|split].
  - exact (proj1 (proj2 C4_steps_in_order_errors_labelled)
             fake.World fake.PullRequest (fake.commenter None "report: ok")
             "acme" "widgets" 41 fake.thread fake.thread 0 fake.notFound eq_refl).
  - exact (proj1 (proj2 (proj2 (proj2 (proj2 C4_steps_in_order_errors_labelled))))
             fake.World fake.PullRequest
             (fake.commenter (Some (fake.marked "report:")) "")
             "acme" "widgets" 42
             fake.thread fake.thread fake.thread fake.thread fake.thread
             fake.thread fake.thread 42 ""
             [fake.old 1 "LGTM"] [fake.old 3 "report: 1 failure"]
             (fake.old 2 "report: 3 failures") (fake.marked "report:") 2
             fake.unprocessable
             eq_refl eq_refl eq_refl eq_refl eq_refl eq_refl eq_refl eq_refl).
  - exact (proj2 (proj2 (proj2 (proj2 (proj2 C4_steps_in_order_errors_labelled))))
             fake.World fake.PullRequest (fake.commenter None "")
             "acme" "widgets" 42
             fake.thread fake.thread fake.thread fake.thread fake.thread
             fake.thread 42 "" fake.thread [] fake.unprocessable
             eq_refl eq_refl eq_refl
             (or_introl (conj eq_refl (conj eq_refl eq_refl))) eq_refl).
Defined.

(** C8: [*comment.ID] is read with no check.  When the comment the
    matcher accepts first has no ID (its ID is nil, or the comment
    itself is), the run ends in a panic right after the matcher's answer:
    nothing is written and no error is returned.  Once the pull request
    is fetched, the body made and the comments listed, this is the only
    way the run panics; so, when every listed comment the matcher can
    accept carries an ID, the run returns. *)
Theorem C8_accepted_comment_without_ID_panics :
  (forall (World PullRequest : Type) (c : Commenter World PullRequest)
          (owner reponame : string) (prnum : Z) (w w1 w2 w3 w4 w5 : World)
          (pr : PullRequest) (b : string)
          (pre post : list (option IssueComment)) (comment : option IssueComment)
          (isComment : Matcher World),
      Get (prs c) owner reponame prnum w = ((pr, None), w1) ->
      body c pr w1 = ((b, None), w2) ->
      ListComments (issues c) owner reponame prnum w2
      = ((pre ++ comment :: post, None), w3) ->
      IsComment c = Some isComment ->
      rejects isComment pre w3 = Some w4 ->
      isComment comment w4 = (true, w5) ->
      comment_ID comment = None ->
      let run := AddOrUpdate c owner reponame prnum w in
      run = (Panic, w5,
             [CallGet owner reponame prnum; CallBody pr;
              CallListComments owner reponame prnum]
             ++ map CallIsComment pre ++ [CallIsComment comment]) /\
      writes (calls run) = 0%nat /\
      (forall res : option error, outcome run <> Done res)) /\
  (forall (World PullRequest : Type) (c : Commenter World PullRequest)
          (owner reponame : string) (prnum : Z) (w w1 w2 w3 : World)
          (pr : PullRequest) (b : string)
          (comments : list (option IssueComment)),
      Get (prs c) owner reponame prnum w = ((pr, None), w1) ->
      body c pr w1 = ((b, None), w2) ->
      ListComments (issues c) owner reponame prnum w2 = ((comments, None), w3) ->
      outcome (AddOrUpdate c owner reponame prnum w) = Panic ->
      exists (isComment : Matcher World)
             (pre post : list (option IssueComment))
             (comment : option IssueComment) (w4 w5 : World),
        comments = pre ++ comment :: post /\
        IsComment c = Some isComment /\
        rejects isComment pre w3 = Some w4 /\
        isComment comment w4 = (true, w5) /\
        comment_ID comment = None) /\
  (forall (World PullRequest : Type) (c : Commenter World PullRequest)
          (owner reponame : string) (prnum : Z) (w w1 w2 w3 : World)
          (pr : PullRequest) (b : string)
          (comments : list (option IssueComment)),
      Get (prs c) owner reponame prnum w = ((pr, None), w1) ->
      body c pr w1 = ((b, None), w2) ->
      ListComments (issues c) owner reponame prnum w2 = ((comments, None), w3) ->
      (forall (isComment : Matcher World) (comment : option IssueComment)
              (w' : World),
          IsComment c = Some isComment ->
          In comment comments ->
          fst (isComment comment w') = true ->
          comment_ID comment <> None) ->
      exists res : option error,
        outcome (AddOrUpdate c owner reponame prnum w) = Done res).
Proof.
  split; [|split].
  - intros World PullRequest c owner reponame prnum w w1 w2 w3 w4 w5 pr b
           pre post comment isComment Hget Hbody Hlist Hmatcher Hrej Hacc Hid run.
    assert (Hprep : prepared c owner reponame prnum w pr b (pre ++ comment :: post) w3)
      by (exists w1, w2; repeat split; assumption).
    assert (Hrun : run = (Panic, w5,
                          opening owner reponame prnum pr
                          ++ map CallIsComment pre ++ [CallIsComment comment]))
      by exact (AddOrUpdate_panics c owner reponame prnum _ _ _ _ _ _ _ _ _ _
                  Hprep Hmatcher Hrej Hacc Hid).
    split; [exact Hrun|]. rewrite Hrun. split.
    + unfold calls, writes. cbn [snd].
      rewrite count_scan by (intros; reflexivity). reflexivity.
    + intros res. unfold outcome. cbn. discriminate.
  - intros World PullRequest c owner reponame prnum w w1 w2 w3 pr b comments
           Hget Hbody Hlist.
    apply (Run_prepared_panic c owner reponame prnum w _
             (AddOrUpdate_runs c owner reponame prnum w) pr b comments w3).
    exists w1, w2. repeat split; assumption.
  - intros World PullRequest c owner reponame prnum w w1 w2 w3 pr b comments
           Hget Hbody Hlist Hids.
    destruct (outcome (AddOrUpdate c owner reponame prnum w)) as [res|] eqn:Hout.
    + exists res. reflexivity.
    + assert (Hprep : prepared c owner reponame prnum w pr b comments w3)
        by (exists w1, w2; repeat split; assumption).
      destruct (Run_prepared_panic c owner reponame prnum w _
                  (AddOrUpdate_runs c owner reponame prnum w) pr b comments w3
                  Hprep Hout)
        as (isComment & pre & post & comment & w4 & w5
            & -> & Hmatcher & _ & Hacc & Hid).
      exfalso. apply (Hids isComment comment w4 Hmatcher).
      * apply in_elt.
      * now rewrite Hacc.
      * exact Hid.
Qed.

(** C8 on the test double: the thread whose first report has no ID
    makes the run panic after the matcher has accepted that comment;
    the thread whose comments all have one makes it return. *)
Lemma C8_accepted_comment_without_ID_panics_witness :
  AddOrUpdate (fake.commenter (Some (fake.marked "report:")) "report: ok")
    "acme" "widgets" 42 fake.thread_no_ID
  = (Panic, fake.thread_no_ID,
     [CallGet "acme" "widgets" 42; CallBody 42;
      CallListComments "acme" "widgets" 42;
      CallIsComment (fake.old 1 "LGTM");
      CallIsComment (Some {| ID := None; Body := Some "report: 3 failures" |})])
  /\ exists res : option error,
       outcome (AddOrUpdate
                  (fake.commenter (Some (fake.marked "report:")) "report: ok")
                  "acme" "widgets" 42 fake.thread) = Done res.
Proof.
  split.
  - exact (proj1 (proj1 C8_accepted_comment_without_ID_panics
                    fake.World fake.PullRequest
                    (fake.commenter (Some (fake.marked "report:")) "report: ok")
                    "acme" "widgets" 42
                    fake.thread_no_ID fake.thread_no_ID fake.thread_no_ID
                    fake.thread_no_ID fake.thread_no_ID fake.thread_no_ID
                    42 "report: ok"
                    [fake.old 1 "LGTM"] [fake.old 3 "report: 1 failure"]
                    (Some {| ID := None; Body := Some "report: 3 failures" |})
                    (fake.marked "report:")
                    eq_refl eq_refl eq_refl eq_refl eq_refl eq_refl eq_refl)).
  - refine (proj2 (proj2 C8_accepted_comment_without_ID_panics)
              fake.World fake.PullRequest
              (fake.commenter (Some (fake.marked "report:")) "report: ok")
              "acme" "widgets" 42
              fake.thread fake.thread fake.thread fake.thread
              42 "report: ok" fake.thread
              eq_refl eq_refl eq_refl _).
    intros isComment comment w' _ Hin _.
    destruct Hin as [<- | [<- | [<- | []]]]; discriminate.
Defined.

(** * Further properties of [AddOrUpdate] *)

Section AddOrUpdate_more.

Context {World PullRequest : Type}.
Variable c : Commenter World PullRequest.
Variables owner reponame : string.
Variable prnum : Z.

(** What the first three steps gave is settled by the world they
    started from. *)
Lemma prepared_unique (w w3 w3' : World) (pr pr' : PullRequest) (b b' : string)
    (comments comments' : list (option IssueComment)) :
  prepared c owner reponame prnum w pr b comments w3 ->
  prepared c owner reponame prnum w pr' b' comments' w3' ->
  pr' = pr /\ b' = b /\ comments' = comments /\ w3' = w3.
Proof.
  intros (w1 & w2 & Hget & Hbody & Hlist) (w1' & w2' & Hget' & Hbody' & Hlist').
  rewrite Hget in Hget'. injection Hget' as <- <-.
  rewrite Hbody in Hbody'. injection Hbody' as <- <-.
  rewrite Hlist in Hlist'. injection Hlist' as <- <-.
  repeat split; reflexivity.
Qed.

Lemma asked_IsComment (l : list (option IssueComment)) :
  asked (map (@CallIsComment PullRequest) l) = l.
Proof.
  unfold asked. induction l as [|comment rest IH]; cbn; [reflexivity|].
  f_equal. exact IH.
Qed.

Lemma asked_scan (pr : PullRequest) (l : list (option IssueComment))
    (tail : list (Call PullRequest)) :
  asked (opening owner reponame prnum pr ++ map CallIsComment l ++ tail)
  = l ++ asked tail.
Proof.
  unfold asked. rewrite !flat_map_app.
  rewrite <- (asked_IsComment l) at 2. reflexivity.
Qed.

Lemma sent_scan (pr : PullRequest) (l : list (option IssueComment))
    (tail : list (Call PullRequest)) :
  sent (opening owner reponame prnum pr ++ map CallIsComment l ++ tail)
  = sent tail.
Proof.
  unfold sent. rewrite !flat_map_app. cbn [opening flat_map app].
  induction l as [|comment rest IH]; [reflexivity | exact IH].
Qed.

Lemma edited_scan (pr : PullRequest) (l : list (option IssueComment))
    (tail : list (Call PullRequest)) :
  edited (opening owner reponame prnum pr ++ map CallIsComment l ++ tail)
  = edited tail.
Proof.
  unfold edited. rewrite !flat_map_app. cbn [opening flat_map app].
  induction l as [|comment rest IH]; [reflexivity | exact IH].
Qed.

Lemma addressed_scan (pr : PullRequest) (l : list (option IssueComment))
    (tail : list (Call PullRequest)) :
  forallb (addressed owner reponame prnum) tail = true ->
  forallb (addressed owner reponame prnum)
    (opening owner reponame prnum pr ++ map CallIsComment l ++ tail) = true.
Proof.
  intros Htail. rewrite !forallb_app, Htail, andb_true_r.
  apply andb_true_iff. split.
  - cbn. now rewrite !String.eqb_refl, !Z.eqb_refl.
  - induction l as [|comment rest IH]; [reflexivity | exact IH].
Qed.

Section more_runs.

Variable w : World.
Variable r : Outcome (option error) * World * list (Call PullRequest).
Hypothesis Hrun : Run c owner reponame prnum w r.

(** Every call of a run is about the repository and the pull request
    [AddOrUpdate] was given. *)
Lemma Run_addressed :
  forallb (addressed owner reponame prnum) (calls r) = true.
Proof.
  destruct Hrun; unfold calls; cbn [snd];
    try (cbn; now rewrite !String.eqb_refl, !Z.eqb_refl);
    try (apply addressed_scan; cbn;
         rewrite ?String.eqb_refl, ?Z.eqb_refl; reflexivity).
Qed.

(** The error of a run is the error one collaborator returned in that
    run, under the message of the step: the fetch, the body callback or
    the listing, and then nothing was written; or the edit of the first
    accepted comment, and then nothing was created; or the creation,
    and then nothing was edited. *)
Lemma Run_error_cause (e : error) :
  outcome r = Done (Some e) ->
  (exists (pr : PullRequest) (w1 : World) (cause : error),
      Get (prs c) owner reponame prnum w = ((pr, Some cause), w1) /\
      e = Wrapped cause "getting pull request" /\
      writes (calls r) = 0%nat)
  \/
  (exists (pr : PullRequest) (b : string) (w1 w2 : World) (cause : error),
      Get (prs c) owner reponame prnum w = ((pr, None), w1) /\
      body c pr w1 = ((b, Some cause), w2) /\
      e = Wrapped cause "getting comment body" /\
      writes (calls r) = 0%nat)
  \/
  (exists (pr : PullRequest) (b : string)
          (comments : list (option IssueComment))
          (w1 w2 w3 : World) (cause : error),
      Get (prs c) owner reponame prnum w = ((pr, None), w1) /\
      body c pr w1 = ((b, None), w2) /\
      ListComments (issues c) owner reponame prnum w2
      = ((comments, Some cause), w3) /\
      e = Wrapped cause "listing PR comments" /\
      writes (calls r) = 0%nat)
  \/
  (exists (pr : PullRequest) (b : string)
          (pre post : list (option IssueComment))
          (comment : option IssueComment) (isComment : Matcher World)
          (id : Z) (w3 w4 w5 w6 : World) (cause : error),
      prepared c owner reponame prnum w pr b (pre ++ comment :: post) w3 /\
      IsComment c = Some isComment /\
      rejects isComment pre w3 = Some w4 /\
      isComment comment w4 = (true, w5) /\
      comment_ID comment = Some id /\
      EditComment (issues c) owner reponame id
        {| ID := None; Body := Some b |} w5 = (Some cause, w6) /\
      e = Wrapped cause "updating PR comment" /\
      edits (calls r) = 1%nat /\ creates (calls r) = 0%nat)
  \/
  (exists (pr : PullRequest) (b : string)
          (comments : list (option IssueComment))
          (w3 w4 w5 : World) (cause : error),
      prepared c owner reponame prnum w pr b comments w3 /\
      (IsComment c = None /\ w4 = w3
       \/ exists isComment : Matcher World,
            IsComment c = Some isComment /\
            rejects isComment comments w3 = Some w4) /\
      CreateComment (issues c) owner reponame prnum
        {| ID := None; Body := Some b |} w4 = (Some cause, w5) /\
      e = Wrapped cause "adding PR comment" /\
      creates (calls r) = 1%nat /\ edits (calls r) = 0%nat).
Proof.
  destruct Hrun as [pr e0 w1 Hget | pr b e0 w1 w2 Hget Hbody
                   | pr b cs e0 w1 w2 w3 Hget Hbody Hlist
                   | pr b cs w3 Hprep Hnil ic written
                   | pr b cs f w3 w4 Hprep Hsome Hrej ic written
                   | pr b pre post cm f id w3 w4 w5 Hprep Hsome Hrej Hacc Hid ic written
                   | pr b pre post cm f w3 w4 w5 Hprep Hsome Hrej Hacc Hid];
    unfold outcome, calls; cbn [fst snd].
  - intros [= <-]. left. exists pr, w1, e0. auto.
  - intros [= <-]. right; left. exists pr, b, w1, w2, e0. auto.
  - intros [= <-]. right; right; left. exists pr, b, cs, w1, w2, w3, e0. auto.
  - destruct written as [[cause|] w5] eqn:Hw; cbn [fst errors.Wrap];
      [|discriminate].
    intros [= <-]. right; right; right; right.
    exists pr, b, cs, w3, w3, w5, cause.
    split; [exact Hprep|]. split; [left; split; [exact Hnil | reflexivity]|].
    split; [exact Hw|]. split; [reflexivity|]. split; reflexivity.
  - destruct written as [[cause|] w5] eqn:Hw; cbn [fst errors.Wrap];
      [|discriminate].
    intros [= <-]. right; right; right; right.
    exists pr, b, cs, w3, w4, w5, cause.
    split; [exact Hprep|]. split; [right; exists f; split; assumption|].
    split; [exact Hw|]. split; [reflexivity|].
    unfold creates, edits. rewrite !count_scan by (intros; reflexivity).
    split; reflexivity.
  - destruct written as [[cause|] w6] eqn:Hw; cbn [fst errors.Wrap];
      [|discriminate].
    intros [= <-]. right; right; right; left.
    exists pr, b, pre, post, cm, f, id, w3, w4, w5, w6, cause.
    split; [exact Hprep|]. split; [exact Hsome|]. split; [exact Hrej|].
    split; [exact Hacc|]. split; [exact Hid|]. split; [exact Hw|].
    split; [reflexivity|].
    unfold creates, edits. rewrite !count_scan by (intros; reflexivity).
    split; reflexivity.
  - discriminate.
Qed.

(** A run returns nil only after a write, its last call. *)
Lemma Run_nil_written :
  outcome r = Done None ->
  writes (calls r) = 1%nat /\
  exists (before : list (Call PullRequest)) (ev : Call PullRequest),
    calls r = before ++ [ev] /\ is_write ev = true.
Proof.
  destruct Hrun as [pr e0 w1 Hget | pr b e0 w1 w2 Hget Hbody
                   | pr b cs e0 w1 w2 w3 Hget Hbody Hlist
                   | pr b cs w3 Hprep Hnil ic written
                   | pr b cs f w3 w4 Hprep Hsome Hrej ic written
                   | pr b pre post cm f id w3 w4 w5 Hprep Hsome Hrej Hacc Hid ic written
                   | pr b pre post cm f w3 w4 w5 Hprep Hsome Hrej Hacc Hid];
    unfold outcome, calls, writes; cbn [fst snd]; try discriminate; intros _.
  - split; [reflexivity|]. eexists _, _. split; reflexivity.
  - split; [now rewrite count_scan by (intros; reflexivity)|].
    eexists _, _. rewrite !app_assoc. split; reflexivity.
  - split; [now rewrite count_scan by (intros; reflexivity)|].
    exists (opening owner reponame prnum pr ++ map CallIsComment pre
            ++ [CallIsComment cm]),
           (CallEditComment owner reponame id ic).
    split; [|reflexivity]. rewrite <- !app_assoc. reflexivity.
Qed.

(** The matcher is asked about a front part of the listing, in order. *)
Lemma Run_asked_prefix (pr : PullRequest) (b : string)
    (comments : list (option IssueComment)) (w3 : World) :
  prepared c owner reponame prnum w pr b comments w3 ->
  exists rest : list (option IssueComment),
    comments = asked (calls r) ++ rest.
Proof.
  intros Hprep.
  destruct Hrun as [pr' e0 w1 Hget | pr' b' e0 w1 w2 Hget Hbody
                   | pr' b' cs e0 w1 w2 w3' Hget Hbody Hlist
                   | pr' b' cs w3' Hprep' Hnil ic written
                   | pr' b' cs f w3' w4 Hprep' Hsome Hrej ic written
                   | pr' b' pre post cm f id w3' w4 w5 Hprep' Hsome Hrej Hacc Hid ic written
                   | pr' b' pre post cm f w3' w4 w5 Hprep' Hsome Hrej Hacc Hid];
    unfold calls; cbn [snd];
    try (exists comments; reflexivity);
    destruct (prepared_unique _ _ _ _ _ _ _ _ _ Hprep Hprep') as (_ & _ & Hcs & _).
  - exists []. rewrite asked_scan. cbn. now rewrite !app_nil_r.
  - exists post. rewrite asked_scan. cbn. rewrite <- Hcs, <- app_assoc. reflexivity.
  - exists post. rewrite asked_scan. cbn. rewrite <- Hcs, <- app_assoc. reflexivity.
Qed.

(** An edit is of a comment of the listing. *)
Lemma Run_edited_listed (id : Z) :
  In id (edited (calls r)) ->
  exists (pr : PullRequest) (b : string) (comments : list (option IssueComment))
         (w3 : World) (comment : option IssueComment),
    prepared c owner reponame prnum w pr b comments w3 /\
    In comment comments /\
    comment_ID comment = Some id.
Proof.
  destruct Hrun as [pr e0 w1 Hget | pr b e0 w1 w2 Hget Hbody
                   | pr b cs e0 w1 w2 w3 Hget Hbody Hlist
                   | pr b cs w3 Hprep Hnil ic written
                   | pr b cs f w3 w4 Hprep Hsome Hrej ic written
                   | pr b pre post cm f id' w3 w4 w5 Hprep Hsome Hrej Hacc Hid ic written
                   | pr b pre post cm f w3 w4 w5 Hprep Hsome Hrej Hacc Hid];
    unfold calls; cbn [snd]; rewrite ?edited_scan; cbn; try tauto.
  intros [<- | []].
  exists pr, b, (pre ++ cm :: post), w3, cm.
  split; [exact Hprep | split; [apply in_elt | exact Hid]].
Qed.

(** What a write sends is the generated body and nothing else. *)
Lemma Run_sent_body (pr : PullRequest) (b : string)
    (comments : list (option IssueComment)) (w3 : World) (ic : IssueComment) :
  prepared c owner reponame prnum w pr b comments w3 ->
  In ic (sent (calls r)) ->
  ic = {| ID := None; Body := Some b |}.
Proof.
  intros Hprep.
  destruct Hrun as [pr' e0 w1 Hget | pr' b' e0 w1 w2 Hget Hbody
                   | pr' b' cs e0 w1 w2 w3' Hget Hbody Hlist
                   | pr' b' cs w3' Hprep' Hnil ic' written
                   | pr' b' cs f w3' w4 Hprep' Hsome Hrej ic' written
                   | pr' b' pre post cm f id w3' w4 w5 Hprep' Hsome Hrej Hacc Hid ic' written
                   | pr' b' pre post cm f w3' w4 w5 Hprep' Hsome Hrej Hacc Hid];
    unfold calls; cbn [snd]; rewrite ?sent_scan; cbn; try tauto;
    destruct (prepared_unique _ _ _ _ _ _ _ _ _ Hprep Hprep') as (_ & -> & _ & _);
    intros [<- | []]; reflexivity.
Qed.

(** Without a matcher nothing is asked and nothing is edited. *)
Lemma Run_no_matcher :
  IsComment c = None ->
  asked (calls r) = [] /\ edits (calls r) = 0%nat.
Proof.
  intros Hnil.
  destruct Hrun; unfold calls, edits; cbn [snd];
    try congruence;
    (split; reflexivity).
Qed.

End more_runs.

(** ** Matchers that only look at the comment *)

Section pure_matchers.

Variable p : option IssueComment -> bool.

Lemma rejects_pure (l : list (option IssueComment)) (w : World) :
  forallb (fun comment => negb (p comment)) l = true ->
  rejects (pure_matcher p) l w = Some w.
Proof.
  induction l as [|comment rest IH]; cbn; [reflexivity|].
  unfold pure_matcher at 1. destruct (p comment); cbn; [discriminate|].
  exact IH.
Qed.

Lemma find_none_rejected (l : list (option IssueComment)) :
  find p l = None -> forallb (fun comment => negb (p comment)) l = true.
Proof.
  induction l as [|comment rest IH]; cbn; [reflexivity|].
  destruct (p comment); cbn; [discriminate | exact IH].
Qed.

Lemma find_first (l : list (option IssueComment)) (comment : option IssueComment) :
  find p l = Some comment ->
  exists pre post : list (option IssueComment),
    l = pre ++ comment :: post /\
    forallb (fun comment' => negb (p comment')) pre = true /\
    p comment = true.
Proof.
  induction l as [|first rest IH]; cbn; [discriminate|].
  destruct (p first) eqn:Hfirst.
  - intros [= <-]. exists [], rest. repeat split. exact Hfirst.
  - intros Hrest. destruct (IH Hrest) as (pre & post & -> & Hpre & Hp).
    exists (first :: pre), post. cbn. rewrite Hfirst. repeat split; assumption.
Qed.

End pure_matchers.

End AddOrUpdate_more.

(** X1: whatever error [AddOrUpdate] returns is the error one of its
    collaborators returned in that run, wrapped under the message of the
    step that failed, never an error of its own: the error of the fetch
    under "getting pull request", of the body callback under "getting
    comment body", of the listing under "listing PR comments", of the
    edit of the first accepted comment under "updating PR comment", of
    the creation under "adding PR comment".  The message tells what was
    written: nothing under the first three, one edit attempted and no
    creation under the fourth, one creation attempted and no edit under
    the fifth. *)
Theorem X1_AddOrUpdate_error_is_labelled :
  forall (World PullRequest : Type) (c : Commenter World PullRequest)
         (owner reponame : string) (prnum : Z) (w : World) (e : error),
    let run := AddOrUpdate c owner reponame prnum w in
    outcome run = Done (Some e) ->
    (exists (pr : PullRequest) (w1 : World) (cause : error),
        Get (prs c) owner reponame prnum w = ((pr, Some cause), w1) /\
        e = Wrapped cause "getting pull request" /\
        writes (calls run) = 0%nat)
    \/
    (exists (pr : PullRequest) (b : string) (w1 w2 : World) (cause : error),
        Get (prs c) owner reponame prnum w = ((pr, None), w1) /\
        body c pr w1 = ((b, Some cause), w2) /\
        e = Wrapped cause "getting comment body" /\
        writes (calls run) = 0%nat)
    \/
    (exists (pr : PullRequest) (b : string)
            (comments : list (option IssueComment))
            (w1 w2 w3 : World) (cause : error),
        Get (prs c) owner reponame prnum w = ((pr, None), w1) /\
        body c pr w1 = ((b, None), w2) /\
        ListComments (issues c) owner reponame prnum w2
        = ((comments, Some cause), w3) /\
        e = Wrapped cause "listing PR comments" /\
        writes (calls run) = 0%nat)
    \/
    (exists (pr : PullRequest) (b : string)
            (pre post : list (option IssueComment))
            (comment : option IssueComment) (isComment : Matcher World)
            (id : Z) (w3 w4 w5 w6 : World) (cause : error),
        prepared c owner reponame prnum w pr b (pre ++ comment :: post) w3 /\
        IsComment c = Some isComment /\
        rejects isComment pre w3 = Some w4 /\
        isComment comment w4 = (true, w5) /\
        comment_ID comment = Some id /\
        EditComment (issues c) owner reponame id
          {| ID := None; Body := Some b |} w5 = (Some cause, w6) /\
        e = Wrapped cause "updating PR comment" /\
        edits (calls run) = 1%nat /\ creates (calls run) = 0%nat)
    \/
    (exists (pr : PullRequest) (b : string)
            (comments : list (option IssueComment))
            (w3 w4 w5 : World) (cause : error),
        prepared c owner reponame prnum w pr b comments w3 /\
        (IsComment c = None /\ w4 = w3
         \/ exists isComment : Matcher World,
              IsComment c = Some isComment /\
              rejects isComment comments w3 = Some w4) /\
        CreateComment (issues c) owner reponame prnum
          {| ID := None; Body := Some b |} w4 = (Some cause, w5) /\
        e = Wrapped cause "adding PR comment" /\
        creates (calls run) = 1%nat /\ edits (calls run) = 0%nat).
Proof.
  intros World PullRequest c owner reponame prnum w e run.
  exact (Run_error_cause c owner reponame prnum w _
           (AddOrUpdate_runs c owner reponame prnum w) e).
Qed.

(** X1 on the test double, two runs.  A refused listing: the error is
    the one the listing returned, and nothing was written.  An edit the
    service rejects, the body being empty: the error is the one the edit
    of comment 2 returned. *)
Lemma X1_AddOrUpdate_error_is_labelled_witness :
  (let c := fake.commenter None "report: ok" in
   let run := AddOrUpdate c "acme" "locked" 42 fake.thread in
   let e := Wrapped fake.forbidden "listing PR comments" in
   outcome run = Done (Some e) /\
   ((exists (pr : fake.PullRequest) (w1 : fake.World) (cause : error),
        Get (prs c) "acme" "locked" 42 fake.thread = ((pr, Some cause), w1) /\
        e = Wrapped cause "getting pull request" /\
        writes (calls run) = 0%nat)
    \/
    (exists (pr : fake.PullRequest) (b : string) (w1 w2 : fake.World)
            (cause : error),
        Get (prs c) "acme" "locked" 42 fake.thread = ((pr, None), w1) /\
        body c pr w1 = ((b, Some cause), w2) /\
        e = Wrapped cause "getting comment body" /\
        writes (calls run) = 0%nat)
    \/
    (exists (pr : fake.PullRequest) (b : string)
            (comments : list (option IssueComment))
            (w1 w2 w3 : fake.World) (cause : error),
        Get (prs c) "acme" "locked" 42 fake.thread = ((pr, None), w1) /\
        body c pr w1 = ((b, None), w2) /\
        ListComments (issues c) "acme" "locked" 42 w2
        = ((comments, Some cause), w3) /\
        e = Wrapped cause "listing PR comments" /\
        writes (calls run) = 0%nat)
    \/
    (exists (pr : fake.PullRequest) (b : string)
            (pre post : list (option IssueComment))
            (comment : option IssueComment) (isComment : Matcher fake.World)
            (id : Z) (w3 w4 w5 w6 : fake.World) (cause : error),
        prepared c "acme" "locked" 42 fake.thread pr b (pre ++ comment :: post) w3 /\
        IsComment c = Some isComment /\
        rejects isComment pre w3 = Some w4 /\
        isComment comment w4 = (true, w5) /\
        comment_ID comment = Some id /\
        EditComment (issues c) "acme" "locked" id
          {| ID := None; Body := Some b |} w5 = (Some cause, w6) /\
        e = Wrapped cause "updating PR comment" /\
        edits (calls run) = 1%nat /\ creates (calls run) = 0%nat)
    \/
    (exists (pr : fake.PullRequest) (b : string)
            (comments : list (option IssueComment))
            (w3 w4 w5 : fake.World) (cause : error),
        prepared c "acme" "locked" 42 fake.thread pr b comments w3 /\
        (IsComment c = None /\ w4 = w3
         \/ exists isComment : Matcher fake.World,
              IsComment c = Some isComment /\
              rejects isComment comments w3 = Some w4) /\
        CreateComment (issues c) "acme" "locked" 42
          {| ID := None; Body := Some b |} w4 = (Some cause, w5) /\
        e = Wrapped cause "adding PR comment" /\
        creates (calls run) = 1%nat /\ edits (calls run) = 0%nat)))
  /\ outcome (AddOrUpdate (fake.commenter (Some (fake.marked "report:")) "")
                "acme" "widgets" 42 fake.thread)
     = Done (Some (Wrapped fake.unprocessable "updating PR comment")).
Proof.
  split; [|reflexivity].
  cbv zeta. split; [reflexivity|].
  exact (X1_AddOrUpdate_error_is_labelled fake.World fake.PullRequest
           (fake.commenter None "report: ok") "acme" "locked" 42 fake.thread
           (Wrapped fake.forbidden "listing PR comments") eq_refl).
Defined.

(** X2: [AddOrUpdate] returns nil only when it has written: a run that
    returns nil made exactly one write, and that write was its last
    call. *)
Theorem X2_AddOrUpdate_nil_only_after_write :
  forall (World PullRequest : Type) (c : Commenter World PullRequest)
         (owner reponame : string) (prnum : Z) (w : World),
    outcome (AddOrUpdate c owner reponame prnum w) = Done None ->
    writes (calls (AddOrUpdate c owner reponame prnum w)) = 1%nat /\
    exists (before : list (Call PullRequest)) (ev : Call PullRequest),
      calls (AddOrUpdate c owner reponame prnum w) = before ++ [ev] /\
      is_write ev = true.
Proof.
  intros World PullRequest c owner reponame prnum w.
  exact (Run_nil_written c owner reponame prnum w _
           (AddOrUpdate_runs c owner reponame prnum w)).
Qed.

(** X2 on the test double: the run that edits comment 2. *)
Lemma X2_AddOrUpdate_nil_only_after_write_witness :
  writes (calls (AddOrUpdate
                   (fake.commenter (Some (fake.marked "report:")) "report: ok")
                   "acme" "widgets" 42 fake.thread)) = 1%nat /\
  exists (before : list (Call fake.PullRequest)) (ev : Call fake.PullRequest),
    calls (AddOrUpdate
             (fake.commenter (Some (fake.marked "report:")) "report: ok")
             "acme" "widgets" 42 fake.thread) = before ++ [ev] /\
    is_write ev = true.
Proof.
  exact (X2_AddOrUpdate_nil_only_after_write fake.World fake.PullRequest
           (fake.commenter (Some (fake.marked "report:")) "report: ok")
           "acme" "widgets" 42 fake.thread eq_refl).
Defined.

(** X3: [AddOrUpdate] never reaches for another repository or another
    pull request: every call it makes to the service carries the owner
    and the repository name it was given, and the fetch, the listing and
    the creation carry the number it was given. *)
Theorem X3_AddOrUpdate_calls_addressed :
  forall (World PullRequest : Type) (c : Commenter World PullRequest)
         (owner reponame : string) (prnum : Z) (w : World),
    forallb (addressed owner reponame prnum)
      (calls (AddOrUpdate c owner reponame prnum w)) = true.
Proof.
  intros World PullRequest c owner reponame prnum w.
  exact (Run_addressed c owner reponame prnum w _
           (AddOrUpdate_runs c owner reponame prnum w)).
Qed.

(** X4: the matcher is only ever asked about comments of the listing,
    each once, in the order of the listing and without a gap: the
    comments it was asked about are a front part of the listing. *)
Theorem X4_AddOrUpdate_asks_front_of_listing :
  forall (World PullRequest : Type) (c : Commenter World PullRequest)
         (owner reponame : string) (prnum : Z) (w w1 w2 w3 : World)
         (pr : PullRequest) (b : string) (comments : list (option IssueComment)),
    Get (prs c) owner reponame prnum w = ((pr, None), w1) ->
    body c pr w1 = ((b, None), w2) ->
    ListComments (issues c) owner reponame prnum w2 = ((comments, None), w3) ->
    exists rest : list (option IssueComment),
      comments = asked (calls (AddOrUpdate c owner reponame prnum w)) ++ rest.
Proof.
  intros World PullRequest c owner reponame prnum w w1 w2 w3 pr b comments
         Hget Hbody Hlist.
  apply (Run_asked_prefix c owner reponame prnum w _
           (AddOrUpdate_runs c owner reponame prnum w) pr b comments w3).
  exists w1, w2. repeat split; assumption.
Qed.

(** X4 on the test double: two of the three comments are asked about. *)
Lemma X4_AddOrUpdate_asks_front_of_listing_witness :
  exists rest : list (option IssueComment),
    fake.thread
    = asked (calls (AddOrUpdate
                      (fake.commenter (Some (fake.marked "report:")) "report: ok")
                      "acme" "widgets" 42 fake.thread)) ++ rest.
Proof.
  exact (X4_AddOrUpdate_asks_front_of_listing fake.World fake.PullRequest
           (fake.commenter (Some (fake.marked "report:")) "report: ok")
           "acme" "widgets" 42 fake.thread fake.thread fake.thread fake.thread
           42 "report: ok" fake.thread eq_refl eq_refl eq_refl).
Defined.

(** X5: [AddOrUpdate] never edits a comment the listing did not return:
    the ID of an edit is the ID of a listed comment. *)
Theorem X5_AddOrUpdate_edits_listed_comment :
  forall (World PullRequest : Type) (c : Commenter World PullRequest)
         (owner reponame : string) (prnum : Z) (w : World) (id : Z),
    In id (edited (calls (AddOrUpdate c owner reponame prnum w))) ->
    exists (pr : PullRequest) (b : string) (comments : list (option IssueComment))
           (w3 : World) (comment : option IssueComment),
      prepared c owner reponame prnum w pr b comments w3 /\
      In comment comments /\
      comment_ID comment = Some id.
Proof.
  intros World PullRequest c owner reponame prnum w.
  exact (Run_edited_listed c owner reponame prnum w _
           (AddOrUpdate_runs c owner reponame prnum w)).
Qed.

(** X5 on the test double: the edit of comment 2. *)
Lemma X5_AddOrUpdate_edits_listed_comment_witness :
  exists (pr : fake.PullRequest) (b : string)
         (comments : list (option IssueComment))
         (w3 : fake.World) (comment : option IssueComment),
    prepared (fake.commenter (Some (fake.marked "report:")) "report: ok")
      "acme" "widgets" 42 fake.thread pr b comments w3 /\
    In comment comments /\
    comment_ID comment = Some 2.
Proof.
  exact (X5_AddOrUpdate_edits_listed_comment fake.World fake.PullRequest
           (fake.commenter (Some (fake.marked "report:")) "report: ok")
           "acme" "widgets" 42 fake.thread 2 (or_introl eq_refl)).
Defined.

(** X6: what [AddOrUpdate] writes is the body the callback generated
    and nothing else: the comment sent by an edit or a creation has that
    body and no ID (nor anything of the comment it replaces). *)
Theorem X6_AddOrUpdate_sends_generated_body :
  forall (World PullRequest : Type) (c : Commenter World PullRequest)
         (owner reponame : string) (prnum : Z) (w w1 w2 w3 : World)
         (pr : PullRequest) (b : string) (comments : list (option IssueComment))
         (ic : IssueComment),
    Get (prs c) owner reponame prnum w = ((pr, None), w1) ->
    body c pr w1 = ((b, None), w2) ->
    ListComments (issues c) owner reponame prnum w2 = ((comments, None), w3) ->
    In ic (sent (calls (AddOrUpdate c owner reponame prnum w))) ->
    ic = {| ID := None; Body := Some b |}.
Proof.
  intros World PullRequest c owner reponame prnum w w1 w2 w3 pr b comments ic
         Hget Hbody Hlist.
  apply (Run_sent_body c owner reponame prnum w _
           (AddOrUpdate_runs c owner reponame prnum w) pr b comments w3).
  exists w1, w2. repeat split; assumption.
Qed.

(** X6 on the test double: the comment sent by the edit of comment 2. *)
Lemma X6_AddOrUpdate_sends_generated_body_witness :
  sent (calls (AddOrUpdate
                 (fake.commenter (Some (fake.marked "report:")) "report: ok")
                 "acme" "widgets" 42 fake.thread))
  = [{| ID := None; Body := Some "report: ok" |}] /\
  {| ID := None; Body := Some "report: ok" |}
  = {| ID := None; Body := Some "report: ok" |}.
Proof.
  split; [reflexivity|].
  exact (X6_AddOrUpdate_sends_generated_body fake.World fake.PullRequest
           (fake.commenter (Some (fake.marked "report:")) "report: ok")
           "acme" "widgets" 42 fake.thread fake.thread fake.thread fake.thread
           42 "report: ok" fake.thread
           {| ID := None; Body := Some "report: ok" |}
           eq_refl eq_refl eq_refl (or_introl eq_refl)).
Defined.

(** X7: a Commenter as [NewCommenter] makes it, from a client and a
    body callback that are there, has no matcher, so it only ever adds
    comments: its [AddOrUpdate] asks no matcher and edits nothing, and
    when the fetch, the body callback and the listing succeed it makes
    exactly the four calls fetch, callback, listing, creation on the
    client's two services, and returns what the creation returned under
    "adding PR comment". *)
Theorem X7_NewCommenter_only_creates :
  forall (World PullRequest : Type) (client : Client World PullRequest)
         (bodyfn : PullRequest -> World -> (string * option error) * World)
         (owner reponame : string) (prnum : Z) (w : World),
    let run := AddOrUpdate (NewCommenter client bodyfn) owner reponame prnum w in
    asked (calls run) = [] /\
    edits (calls run) = 0%nat /\
    (forall (w1 w2 w3 : World) (pr : PullRequest) (b : string)
            (comments : list (option IssueComment)),
        Get (PullRequests client) owner reponame prnum w = ((pr, None), w1) ->
        bodyfn pr w1 = ((b, None), w2) ->
        ListComments (Issues client) owner reponame prnum w2
        = ((comments, None), w3) ->
        let issueComment := {| ID := None; Body := Some b |} in
        let written :=
          CreateComment (Issues client) owner reponame prnum issueComment w3 in
        run = (Done (errors.Wrap (fst written) "adding PR comment"), snd written,
               [CallGet owner reponame prnum; CallBody pr;
                CallListComments owner reponame prnum;
                CallCreateComment owner reponame prnum issueComment])).
Proof.
  intros World PullRequest client bodyfn owner reponame prnum w run.
  destruct (Run_no_matcher (NewCommenter client bodyfn) owner reponame prnum w run
              (AddOrUpdate_runs _ owner reponame prnum w) eq_refl)
    as (Hasked & Hedits).
  split; [exact Hasked|]. split; [exact Hedits|].
  intros w1 w2 w3 pr b comments Hget Hbody Hlist issueComment written.
  apply (AddOrUpdate_creates_no_matcher (NewCommenter client bodyfn)
           owner reponame prnum w w3 pr b comments); [|reflexivity].
  exists w1, w2. repeat split; assumption.
Qed.

(** X7 on the test double's services: a fourth comment is created,
    though two earlier reports are in the thread. *)
Lemma X7_NewCommenter_only_creates_witness :
  AddOrUpdate
    (NewCommenter {| PullRequests := fake.pullRequests; Issues := fake.issueService |}
       (fake.say "report: ok"))
    "acme" "widgets" 42 fake.thread
  = (Done None, fake.thread ++ [fake.old 4 "report: ok"],
     [CallGet "acme" "widgets" 42; CallBody 42;
      CallListComments "acme" "widgets" 42;
      CallCreateComment "acme" "widgets" 42
        {| ID := None; Body := Some "report: ok" |}]).
Proof.
  exact (proj2 (proj2
           (X7_NewCommenter_only_creates fake.World fake.PullRequest
              {| PullRequests := fake.pullRequests; Issues := fake.issueService |}
              (fake.say "report: ok") "acme" "widgets" 42 fake.thread))
           fake.thread fake.thread fake.thread 42 "report: ok" fake.thread
           eq_refl eq_refl eq_refl).
Defined.

(** X8: on a pull request without comments [AddOrUpdate] creates the
    comment, with or without a matcher, and the matcher is not asked
    about anything. *)
Theorem X8_AddOrUpdate_empty_listing_creates :
  forall (World PullRequest : Type) (c : Commenter World PullRequest)
         (owner reponame : string) (prnum : Z) (w w1 w2 w3 : World)
         (pr : PullRequest) (b : string),
    Get (prs c) owner reponame prnum w = ((pr, None), w1) ->
    body c pr w1 = ((b, None), w2) ->
    ListComments (issues c) owner reponame prnum w2 = (([], None), w3) ->
    let issueComment := {| ID := None; Body := Some b |} in
    let written := CreateComment (issues c) owner reponame prnum issueComment w3 in
    AddOrUpdate c owner reponame prnum w
    = (Done (errors.Wrap (fst written) "adding PR comment"), snd written,
       [CallGet owner reponame prnum; CallBody pr;
        CallListComments owner reponame prnum;
        CallCreateComment owner reponame prnum issueComment]).
Proof.
  intros World PullRequest c owner reponame prnum w w1 w2 w3 pr b
         Hget Hbody Hlist issueComment written.
  assert (Hprep : prepared c owner reponame prnum w pr b [] w3)
    by (exists w1, w2; repeat split; assumption).
  destruct (IsComment c) as [isComment|] eqn:Hmatcher.
  - exact (AddOrUpdate_creates_unmatched c owner reponame prnum w w3 w3 pr b []
             isComment Hprep Hmatcher eq_refl).
  - exact (AddOrUpdate_creates_no_matcher c owner reponame prnum w w3 pr b []
             Hprep Hmatcher).
Qed.

(** X8 on the test double: the first report on an empty thread. *)
Lemma X8_AddOrUpdate_empty_listing_creates_witness :
  AddOrUpdate (fake.commenter (Some (fake.marked "report:")) "report: ok")
    "acme" "widgets" 42 []
  = (Done None, [fake.old 1 "report: ok"],
     [CallGet "acme" "widgets" 42; CallBody 42;
      CallListComments "acme" "widgets" 42;
      CallCreateComment "acme" "widgets" 42
        {| ID := None; Body := Some "report: ok" |}]).
Proof.
  exact (X8_AddOrUpdate_empty_listing_creates fake.World fake.PullRequest
           (fake.commenter (Some (fake.marked "report:")) "report: ok")
           "acme" "widgets" 42 [] [] [] [] 42 "report: ok"
           eq_refl eq_refl eq_refl).
Defined.

(** X9: with a matcher that only looks at the comment, [AddOrUpdate] is
    a find-or-create on the listing.  When [find] finds no comment the
    matcher accepts, every comment was asked about and one comment is
    created; when it finds one, that comment, and no other, is edited
    (in the world the listing left) and nothing is created, or, if that
    comment has no ID, the run panics. *)
Theorem X9_AddOrUpdate_pure_matcher_is_find :
  forall (World PullRequest : Type) (c : Commenter World PullRequest)
         (owner reponame : string) (prnum : Z) (w w1 w2 w3 : World)
         (pr : PullRequest) (b : string) (comments : list (option IssueComment))
         (p : option IssueComment -> bool),
    Get (prs c) owner reponame prnum w = ((pr, None), w1) ->
    body c pr w1 = ((b, None), w2) ->
    ListComments (issues c) owner reponame prnum w2 = ((comments, None), w3) ->
    IsComment c = Some (pure_matcher p) ->
    let issueComment := {| ID := None; Body := Some b |} in
    let run := AddOrUpdate c owner reponame prnum w in
    (find p comments = None ->
     asked (calls run) = comments /\
     edited (calls run) = [] /\
     sent (calls run) = [issueComment] /\
     outcome run
     = Done (errors.Wrap
               (fst (CreateComment (issues c) owner reponame prnum issueComment w3))
               "adding PR comment")) /\
    (forall (comment : option IssueComment) (id : Z),
        find p comments = Some comment ->
        comment_ID comment = Some id ->
        edited (calls run) = [id] /\
        sent (calls run) = [issueComment] /\
        creates (calls run) = 0%nat /\
        outcome run
        = Done (errors.Wrap
                  (fst (EditComment (issues c) owner reponame id issueComment w3))
                  "updating PR comment")) /\
    (forall comment : option IssueComment,
        find p comments = Some comment ->
        comment_ID comment = None ->
        outcome run = Panic /\ sent (calls run) = []).
Proof.
  intros World PullRequest c owner reponame prnum w w1 w2 w3 pr b comments p
         Hget Hbody Hlist Hmatcher issueComment run.
  assert (Hprep : prepared c owner reponame prnum w pr b comments w3)
    by (exists w1, w2; repeat split; assumption).
  split; [|split].
  - intros Hnone.
    assert (Hrun := AddOrUpdate_creates_unmatched c owner reponame prnum
                      w w3 w3 pr b comments (pure_matcher p) Hprep Hmatcher
                      (rejects_pure p comments w3 (find_none_rejected p comments Hnone))).
    cbv zeta in Hrun. fold run issueComment in Hrun. rewrite Hrun.
    unfold calls, outcome. cbn [fst snd].
    rewrite asked_scan, edited_scan, sent_scan. cbn. rewrite app_nil_r.
    repeat split.
  - intros comment id Hfind Hid.
    destruct (find_first p comments comment Hfind) as (pre & post & -> & Hpre & Hp).
    assert (Hrun := AddOrUpdate_edits c owner reponame prnum
                      w w3 w3 w3 pr b pre post comment (pure_matcher p) id
                      Hprep Hmatcher (rejects_pure p pre w3 Hpre)
                      (f_equal (fun x => (x, w3)) Hp) Hid).
    cbv zeta in Hrun. fold run issueComment in Hrun. rewrite Hrun.
    unfold calls, outcome, creates. cbn [fst snd].
    rewrite edited_scan, sent_scan, count_scan by (intros; reflexivity).
    repeat split.
  - intros comment Hfind Hid.
    destruct (find_first p comments comment Hfind) as (pre & post & -> & Hpre & Hp).
    assert (Hrun := AddOrUpdate_panics c owner reponame prnum
                      w w3 w3 w3 pr b pre post comment (pure_matcher p)
                      Hprep Hmatcher (rejects_pure p pre w3 Hpre)
                      (f_equal (fun x => (x, w3)) Hp) Hid).
    fold run in Hrun. rewrite Hrun.
    unfold calls, outcome. cbn [fst snd]. rewrite sent_scan. split; reflexivity.
Qed.

(** X9 on the test double, whose matcher looks at the body only: the
    first report found in the thread is comment 2. *)
Lemma X9_AddOrUpdate_pure_matcher_is_find_witness :
  let run := AddOrUpdate
               (fake.commenter (Some (fake.marked "report:")) "report: ok")
               "acme" "widgets" 42 fake.thread in
  edited (calls run) = [2] /\
  sent (calls run) = [{| ID := None; Body := Some "report: ok" |}] /\
  creates (calls run) = 0%nat /\
  outcome run = Done None.
Proof.
  exact (proj1 (proj2
           (X9_AddOrUpdate_pure_matcher_is_find fake.World fake.PullRequest
              (fake.commenter (Some (fake.marked "report:")) "report: ok")
              "acme" "widgets" 42 fake.thread fake.thread fake.thread fake.thread
              42 "report: ok" fake.thread
              (fun comment => fst (fake.marked "report:" comment []))
              eq_refl eq_refl eq_refl eq_refl))
           (fake.old 2 "report: 3 failures") 2 eq_refl eq_refl).
Defined.

(** * Further properties of [ParsePR] *)

(** ** The numbers [strconv.Atoi] gives *)

(** On digits only the digit loop gives a number or overflows. *)
Lemma all_digits_digits (s : string) (acc : Z) :
  all_digits s = true ->
  (exists v : Z, strconv.digits s acc = (v, None)) \/
  strconv.digits s acc = (strconv.maxVal, Some ErrRange).
Proof.
  intros Hall.
  destruct (digits_cases s acc) as [H | [H | H]]; [|right; exact H | left; exact H].
  apply digits_syntax_not_all_digits in H. congruence.
Qed.

(** A written integer is read, or is out of range: then the number
    given back is the bound of [int] on its side. *)
Lemma Atoi_decimal (s : string) :
  is_decimal s = true ->
  snd (strconv.Atoi s) = None \/
  strconv.Atoi s = (strconv.MaxInt, Some (NumError "Atoi" s ErrRange))
  /\ strings.HasPrefix s "-" = false \/
  strconv.Atoi s = (strconv.MinInt, Some (NumError "Atoi" s ErrRange))
  /\ strings.HasPrefix s "-" = true.
Proof.
  intros Hdec.
  destruct (Atoi_cases s) as [H | [H | [H | [n H]]]]; auto.
  - exfalso. destruct s as [|c rest]; [discriminate|].
    rewrite Atoi_unfold in H. cbv zeta in H. unfold is_decimal in Hdec.
    destruct (Ascii.eqb c "-" || Ascii.eqb c "+").
    + destruct rest as [|c' rest']; [discriminate|].
      cbn [String.eqb negb andb] in Hdec.
      destruct (all_digits_digits _ 0 Hdec) as [[v Hv] | Hv]; rewrite Hv in H.
      * destruct (negb _ && _); [discriminate|]. destruct (_ && _); discriminate.
      * destruct (Ascii.eqb c "-"); discriminate.
    + destruct (all_digits_digits _ 0 Hdec) as [[v Hv] | Hv]; rewrite Hv in H.
      * destruct (negb _ && _); [discriminate|]. destruct (_ && _); discriminate.
      * destruct (Ascii.eqb c "-"); discriminate.
  - left. now rewrite H.
Qed.

(** An error of [strconv.Atoi] comes with 0, or is a range error and
    comes with a bound of [int]. *)
Lemma Atoi_error (s : string) (n : Z) (e : error) :
  strconv.Atoi s = (n, Some e) ->
  n = 0 /\ e = NumError "Atoi" s ErrSyntax \/
  e = NumError "Atoi" s ErrRange /\ (n = strconv.MaxInt \/ n = strconv.MinInt).
Proof.
  destruct (Atoi_cases s) as [H | [[H _] | [[H _] | [n' H]]]]; rewrite H;
    intros [= <- <-]; auto.
Qed.

(** ** Reading back a written number *)

Lemma of_uint_acc_ge (d : Decimal.uint) (acc : positive) :
  (acc <= Pos.of_uint_acc d acc)%positive.
Proof.
  revert acc. induction d as [|d IH|d IH|d IH|d IH|d IH|d IH|d IH|d IH|d IH|d IH];
    intros acc; cbn [Pos.of_uint_acc]; [lia|..];
    match goal with
    | |- (_ <= Pos.of_uint_acc _ ?acc')%positive => specialize (IH acc')
    end; lia.
Qed.

Lemma digits_of_uint_acc (d : Decimal.uint) (acc : positive) :
  Z.pos (Pos.of_uint_acc d acc) <= strconv.maxVal ->
  strconv.digits (DecimalString.NilEmpty.string_of_uint d) (Z.pos acc)
  = (Z.pos (Pos.of_uint_acc d acc), None).
Proof.
  change strconv.maxVal with 18446744073709551615.
  revert acc. induction d as [|d IH|d IH|d IH|d IH|d IH|d IH|d IH|d IH|d IH|d IH];
    intros acc Hmax; [reflexivity|..];
    (cbn [DecimalString.NilEmpty.string_of_uint strconv.digits Pos.of_uint_acc] in *;
     match goal with
     | |- context [strconv.digit ?ch] =>
         let v := eval vm_compute in (strconv.digit ch) in
         change (strconv.digit ch) with v
     end;
     change strconv.cutoff10 with 1844674407370955162;
     change strconv.maxVal with 18446744073709551615;
     match type of Hmax with
     | Z.pos (Pos.of_uint_acc _ ?acc') <= _ =>
         pose proof (of_uint_acc_ge d acc') as Hge
     end;
     destruct (Z.leb_spec 1844674407370955162 (Z.pos acc)); [lia|];
     match goal with
     | |- context [18446744073709551615 <? ?n1] =>
         destruct (Z.ltb_spec 18446744073709551615 n1); [lia|]
     end;
     rewrite <- (IH _ Hmax); f_equal; lia).
Qed.

Lemma digits_of_uint (d : Decimal.uint) :
  Z.of_N (Pos.of_uint d) <= strconv.maxVal ->
  strconv.digits (DecimalString.NilEmpty.string_of_uint d) 0
  = (Z.of_N (Pos.of_uint d), None).
Proof.
  induction d as [|d IH|d IH|d IH|d IH|d IH|d IH|d IH|d IH|d IH|d IH];
    intros Hmax; [reflexivity | exact (IH Hmax) | ..];
    cbn [DecimalString.NilEmpty.string_of_uint strconv.digits Pos.of_uint] in *;
    match goal with
    | |- context [strconv.digit ?ch] =>
        let v := eval vm_compute in (strconv.digit ch) in
        change (strconv.digit ch) with v
    end;
    change (strconv.cutoff10 <=? 0) with false;
    cbn [Z.mul Z.add];
    match goal with
    | |- context [strconv.maxVal <? ?k] =>
        change (strconv.maxVal <? k) with false
    end;
    cbn [Z.of_N] in *; apply digits_of_uint_acc; exact Hmax.
Qed.

Lemma all_digits_of_uint (d : Decimal.uint) :
  all_digits (DecimalString.NilEmpty.string_of_uint d) = true.
Proof. induction d; cbn; try reflexivity; exact IHd. Qed.

(** A positive number that fits [uint64], written in decimal: digits
    only, at least one, and they read back as the number. *)
Lemma written_positive (p : positive) :
  Z.pos p <= strconv.maxVal ->
  let s := DecimalString.NilEmpty.string_of_uint (Pos.to_uint p) in
  DecimalString.NilZero.string_of_uint (Pos.to_uint p) = s /\
  all_digits s = true /\
  s <> "" /\
  strconv.digits s 0 = (Z.pos p, None).
Proof.
  intros Hmax. cbv zeta.
  assert (Hval : strconv.digits
                   (DecimalString.NilEmpty.string_of_uint (Pos.to_uint p)) 0
                 = (Z.pos p, None)).
  { rewrite digits_of_uint; rewrite DecimalPos.Unsigned.of_to;
      [reflexivity | exact Hmax]. }
  repeat split.
  - destruct (Pos.to_uint p); [discriminate | reflexivity ..].
  - apply all_digits_of_uint.
  - intros Hempty. rewrite Hempty in Hval. discriminate.
  - exact Hval.
Qed.

(** A positive number is never written as the empty numeral. *)
Lemma written_nonzero (p : positive) :
  DecimalString.NilZero.string_of_uint (Pos.to_uint p)
  = DecimalString.NilEmpty.string_of_uint (Pos.to_uint p).
Proof.
  destruct (Pos.to_uint p) eqn:Hp; try reflexivity.
  pose proof (DecimalPos.Unsigned.of_to p) as H. rewrite Hp in H. discriminate.
Qed.

Lemma is_digit_no_sign (c : ascii) :
  is_digit c = true -> Ascii.eqb c "-" = false /\ Ascii.eqb c "+" = false.
Proof.
  intros Hc. split.
  - destruct (Ascii.eqb_spec c "-") as [->|]; [discriminate | reflexivity].
  - destruct (Ascii.eqb_spec c "+") as [->|]; [discriminate | reflexivity].
Qed.

(** [strconv.Atoi] reads back what [strconv.Itoa] writes. *)
Lemma Atoi_Itoa (n : Z) :
  strconv.MinInt <= n <= strconv.MaxInt ->
  strconv.Atoi (strconv.Itoa n) = (n, None).
Proof.
  change strconv.MinInt with (-9223372036854775808).
  change strconv.MaxInt with 9223372036854775807.
  intros Hn. destruct n as [|p|p]; [reflexivity|..];
    (assert (Hmax : Z.pos p <= strconv.maxVal)
      by (change strconv.maxVal with 18446744073709551615; lia));
    destruct (written_positive p Hmax) as (Hzero & Hall & Hne & Hval);
    cbv zeta in Hzero, Hall, Hne, Hval;
    unfold strconv.Itoa; cbn [Z.to_int DecimalString.NilZero.string_of_int];
    rewrite Hzero;
    destruct (DecimalString.NilEmpty.string_of_uint (Pos.to_uint p))
      as [|c rest] eqn:Hs; try congruence.
  - cbn [all_digits] in Hall. apply andb_true_iff in Hall as [Hc _].
    destruct (is_digit_no_sign c Hc) as [Hminus Hplus].
    rewrite Atoi_unfold. cbv zeta.
    rewrite Hminus, Hplus. cbn [orb negb andb]. rewrite Hval.
    destruct (Z.leb_spec 9223372036854775808 (Z.pos p)); [lia | reflexivity].
  - rewrite Atoi_unfold. cbv zeta.
    change (Ascii.eqb "-" "-") with true. cbn [orb negb andb]. rewrite Hval.
    destruct (Z.ltb_spec 9223372036854775808 (Z.pos p)); [lia | reflexivity].
Qed.

Lemma all_digits_no_slash (s : string) :
  all_digits s = true -> strings.contains s "/" = false.
Proof.
  induction s as [|c rest IH]; cbn [all_digits strings.contains]; [reflexivity|].
  intros H. apply andb_true_iff in H as [Hc Hrest]. rewrite (IH Hrest), orb_false_r.
  destruct (Ascii.eqb_spec "/" c) as [<-|]; [discriminate | reflexivity].
Qed.

Lemma Itoa_no_slash (n : Z) : strings.contains (strconv.Itoa n) "/" = false.
Proof.
  destruct n as [|p|p]; [reflexivity|..];
    unfold strconv.Itoa; cbn [Z.to_int DecimalString.NilZero.string_of_int];
    rewrite written_nonzero.
  - apply all_digits_no_slash. apply all_digits_of_uint.
  - cbn [strings.contains].
    rewrite (all_digits_no_slash _ (all_digits_of_uint _)). reflexivity.
Qed.

(** X10: the number [ParsePR] returns next to an error.  It is 0 on
    every failure but one: when the error is the range error of
    [strconv.Atoi] about the fourth part (wrapped under "parsing number
    from GitHub pull-request URL"), it is [math.MaxInt], or [math.MinInt]
    if that part starts with a minus sign. *)
Theorem X10_ParsePR_number_on_failure :
  forall (url_Parse : string -> url.URL + error) (pr : string) (e : error),
    err (ParsePR url_Parse pr) = Some e ->
    (prnum (ParsePR url_Parse pr) = 0 /\
     forall num : string,
       e <> Wrapped (NumError "Atoi" num ErrRange)
              "parsing number from GitHub pull-request URL")
    \/
    (exists u : url.URL,
        url_Parse pr = inl u /\
        e = Wrapped (NumError "Atoi" (nth 3 (path_parts u) "") ErrRange)
              "parsing number from GitHub pull-request URL" /\
        (prnum (ParsePR url_Parse pr) = strconv.MaxInt
         /\ strings.HasPrefix (nth 3 (path_parts u) "") "-" = false
         \/ prnum (ParsePR url_Parse pr) = strconv.MinInt
            /\ strings.HasPrefix (nth 3 (path_parts u) "") "-" = true)).
Proof.
  intros url_Parse pr e.
  destruct (url_Parse pr) as [u|e0] eqn:Hu.
  - rewrite (ParsePR_parsed url_Parse pr u Hu). cbv zeta.
    destruct (length (path_parts u) <? 4)%nat;
      [cbn; intros [= <-]; left; split; [reflexivity | discriminate]|].
    destruct (negb _);
      [cbn; intros [= <-]; left; split; [reflexivity | discriminate]|].
    cbn [err prnum].
    destruct (Atoi_cases (nth 3 (path_parts u) ""))
      as [H | [[H Hsign] | [[H Hsign] | [n H]]]]; rewrite H; cbn;
      try discriminate; intros [= <-].
    + left. split; [reflexivity | discriminate].
    + right. exists u. auto.
    + right. exists u. auto.
  - unfold ParsePR. rewrite Hu. cbn. intros [= <-].
    left. split; [reflexivity | discriminate].
Qed.

(** X10 on the model of [url.Parse]: twenty nines and a letter. *)
Lemma X10_ParsePR_number_on_failure_witness :
  ParsePR url.Parse "https://github.com/acme/widgets/pull/99999999999999999999x"
  = {| host := "github.com"; owner := "acme"; reponame := "widgets";
       prnum := 9223372036854775807;
       err := Some (Wrapped (NumError "Atoi" "99999999999999999999x" ErrRange)
                      "parsing number from GitHub pull-request URL") |} /\
  ((prnum (ParsePR url.Parse
             "https://github.com/acme/widgets/pull/99999999999999999999x") = 0 /\
    forall num : string,
      Wrapped (NumError "Atoi" "99999999999999999999x" ErrRange)
        "parsing number from GitHub pull-request URL"
      <> Wrapped (NumError "Atoi" num ErrRange)
           "parsing number from GitHub pull-request URL")
   \/
   (exists u : url.URL,
       url.Parse "https://github.com/acme/widgets/pull/99999999999999999999x"
       = inl u /\
       Wrapped (NumError "Atoi" "99999999999999999999x" ErrRange)
         "parsing number from GitHub pull-request URL"
       = Wrapped (NumError "Atoi" (nth 3 (path_parts u) "") ErrRange)
           "parsing number from GitHub pull-request URL" /\
       (prnum (ParsePR url.Parse
                 "https://github.com/acme/widgets/pull/99999999999999999999x")
        = strconv.MaxInt
        /\ strings.HasPrefix (nth 3 (path_parts u) "") "-" = false
        \/ prnum (ParsePR url.Parse
                    "https://github.com/acme/widgets/pull/99999999999999999999x")
           = strconv.MinInt
           /\ strings.HasPrefix (nth 3 (path_parts u) "") "-" = true))).
Proof.
  split; [reflexivity|].
  exact (X10_ParsePR_number_on_failure url.Parse
           "https://github.com/acme/widgets/pull/99999999999999999999x"
           (Wrapped (NumError "Atoi" "99999999999999999999x" ErrRange)
              "parsing number from GitHub pull-request URL") eq_refl).
Defined.

(** X11: [ParsePR] looks at nothing but the host and the path without
    its leading slashes.  Two URLs that agree on these get the same
    results, whatever their scheme, user, query and fragment: the scheme
    is not checked to be http or https, nor the host to be GitHub's. *)
Theorem X11_ParsePR_reads_host_and_path_only :
  forall (url_Parse : string -> url.URL + error) (pr1 pr2 : string)
         (u1 u2 : url.URL),
    url_Parse pr1 = inl u1 ->
    url_Parse pr2 = inl u2 ->
    url.Host u1 = url.Host u2 ->
    strings.TrimLeft (url.Path u1) "/" = strings.TrimLeft (url.Path u2) "/" ->
    ParsePR url_Parse pr1 = ParsePR url_Parse pr2.
Proof.
  intros url_Parse pr1 pr2 u1 u2 H1 H2 Hhost Hpath.
  rewrite (ParsePR_parsed url_Parse pr1 u1 H1), (ParsePR_parsed url_Parse pr2 u2 H2).
  unfold path_parts. cbv zeta. rewrite Hhost, Hpath. reflexivity.
Qed.

(** X11 on the model of [url.Parse]: an ftp URL with a user, a port-less
    host, two leading slashes, a query and a fragment parses as the
    plain https URL does. *)
Lemma X11_ParsePR_reads_host_and_path_only_witness :
  ParsePR url.Parse "ftp://bob@github.com//acme/widgets/pull/42?diff=split#top"
  = ParsePR url.Parse "https://github.com/acme/widgets/pull/42".
Proof.
  exact (X11_ParsePR_reads_host_and_path_only url.Parse
           "ftp://bob@github.com//acme/widgets/pull/42?diff=split#top"
           "https://github.com/acme/widgets/pull/42"
           {| url.Scheme := "ftp"; url.Opaque := ""; url.Host := "github.com";
              url.Path := "//acme/widgets/pull/42"; url.RawQuery := "diff=split";
              url.Fragment := "top" |}
           {| url.Scheme := "https"; url.Opaque := ""; url.Host := "github.com";
              url.Path := "/acme/widgets/pull/42"; url.RawQuery := "";
              url.Fragment := "" |}
           eq_refl eq_refl eq_refl eq_refl).
Defined.

(** X12: [ParsePR] reads back a number as [strconv.Itoa] writes it.  On
    a path /OWNER/REPO/pull/N, with [N] the decimal writing of any [n]
    in the range of [int], it succeeds with that owner, that repository
    and the number [n]; zero and negative numbers are not turned down. *)
Theorem X12_ParsePR_reads_back_written_number :
  forall (url_Parse : string -> url.URL + error) (pr : string) (u : url.URL)
         (o r : string) (n : Z),
    url_Parse pr = inl u ->
    url.Path u = ("/" ++ o ++ "/" ++ r ++ "/pull/" ++ strconv.Itoa n)%string ->
    o <> "" ->
    strings.contains o "/" = false ->
    strings.contains r "/" = false ->
    strconv.MinInt <= n <= strconv.MaxInt ->
    ParsePR url_Parse pr
    = {| host := url.Host u; owner := o; reponame := r; prnum := n;
         err := None |}.
Proof.
  intros url_Parse pr u o r n Hu Hpath Ho Hno Hnr Hn.
  assert (Hpath' : url.Path u
                   = ("/" ++ o ++ "/" ++ r ++ "/pull/" ++ strconv.Itoa n ++ "")%string)
    by (rewrite append_empty_r; exact Hpath).
  destruct (path_parts_pull u o r (strconv.Itoa n) "" Hpath' Ho Hno Hnr
              (Itoa_no_slash n) (or_introl eq_refl)) as [trailing Hparts].
  rewrite (ParsePR_number url_Parse pr u n None Hu);
    rewrite Hparts; cbn [nth length]; try reflexivity; try lia.
  apply Atoi_Itoa. exact Hn.
Qed.

(** X12 on the model of [url.Parse], for pull request 1234567. *)
Lemma X12_ParsePR_reads_back_written_number_witness :
  ParsePR url.Parse "https://github.com/bobg/prcomment/pull/1234567"
  = {| host := "github.com"; owner := "bobg"; reponame := "prcomment";
       prnum := 1234567; err := None |}.
Proof.
  refine (X12_ParsePR_reads_back_written_number url.Parse
            "https://github.com/bobg/prcomment/pull/1234567"
            {| url.Scheme := "https"; url.Opaque := ""; url.Host := "github.com";
               url.Path := "/bobg/prcomment/pull/1234567"; url.RawQuery := "";
               url.Fragment := "" |}
            "bobg" "prcomment" 1234567 eq_refl eq_refl
            (fun H => match H with end) eq_refl eq_refl _).
  vm_compute. split; discriminate.
Defined.

(** X13: a fourth part written as an integer fails in one way only, by
    being out of the range of [int]; and then the number [ParsePR]
    returns next to the error is not zero but the bound of [int] on the
    numeral's side, [math.MaxInt] or, after a minus sign, [math.MinInt]. *)
Theorem X13_ParsePR_written_number_fails_by_range :
  forall (url_Parse : string -> url.URL + error) (pr : string) (u : url.URL),
    url_Parse pr = inl u ->
    (4 <= length (path_parts u))%nat ->
    nth 2 (path_parts u) "" = "pull" ->
    is_decimal (nth 3 (path_parts u) "") = true ->
    let num := nth 3 (path_parts u) "" in
    let res := ParsePR url_Parse pr in
    err res = None \/
    err res = Some (Wrapped (NumError "Atoi" num ErrRange)
                      "parsing number from GitHub pull-request URL")
    /\ (prnum res = strconv.MaxInt /\ strings.HasPrefix num "-" = false
        \/ prnum res = strconv.MinInt /\ strings.HasPrefix num "-" = true).
Proof.
  intros url_Parse pr u Hu Hlen Hpull Hdec num res. subst num res.
  destruct (strconv.Atoi (nth 3 (path_parts u) "")) as [n e] eqn:Hn.
  rewrite (ParsePR_number url_Parse pr u n e Hu Hlen Hpull Hn). cbn [err prnum].
  destruct (Atoi_decimal _ Hdec) as [Hok | [[Hmax Hsign] | [Hmin Hsign]]].
  - left. rewrite Hn in Hok. cbn in Hok. now subst e.
  - right. rewrite Hn in Hmax. injection Hmax as -> ->. cbn. auto.
  - right. rewrite Hn in Hmin. injection Hmin as -> ->. cbn. auto.
Qed.

(** X13 on the model of [url.Parse]: twenty nines after a minus sign. *)
Lemma X13_ParsePR_written_number_fails_by_range_witness :
  ParsePR url.Parse "https://github.com/acme/widgets/pull/-99999999999999999999"
  = {| host := "github.com"; owner := "acme"; reponame := "widgets";
       prnum := -9223372036854775808;
       err := Some (Wrapped (NumError "Atoi" "-99999999999999999999" ErrRange)
                      "parsing number from GitHub pull-request URL") |} /\
  (err (ParsePR url.Parse
          "https://github.com/acme/widgets/pull/-99999999999999999999") = None \/
   err (ParsePR url.Parse
          "https://github.com/acme/widgets/pull/-99999999999999999999")
   = Some (Wrapped (NumError "Atoi" "-99999999999999999999" ErrRange)
             "parsing number from GitHub pull-request URL")
   /\ (prnum (ParsePR url.Parse
                "https://github.com/acme/widgets/pull/-99999999999999999999")
       = strconv.MaxInt /\ strings.HasPrefix "-99999999999999999999" "-" = false
       \/ prnum (ParsePR url.Parse
                   "https://github.com/acme/widgets/pull/-99999999999999999999")
          = strconv.MinInt /\ strings.HasPrefix "-99999999999999999999" "-" = true)).
Proof.
  split; [reflexivity|].
  refine (X13_ParsePR_written_number_fails_by_range url.Parse
            "https://github.com/acme/widgets/pull/-99999999999999999999"
            {| url.Scheme := "https"; url.Opaque := ""; url.Host := "github.com";
               url.Path := "/acme/widgets/pull/-99999999999999999999";
               url.RawQuery := ""; url.Fragment := "" |}
            eq_refl _ eq_refl eq_refl).
  vm_compute. lia.
Defined.
